(** * Expense tracker: a shallow embedding of [app.py]

    The development follows the layout of the program.

    - [PyStr], [PyInt], [PyFloat]: the fragments of Python's [str], [int]
      and [float] that [ExpenseManager] uses ([str.lower],
      [str.startswith], decimal formatting of integers, truthiness).
    - [Expense]: the dictionary built by [add_expense], as a record.
    - [Runtime]: the library routines the program calls and that are not
      part of it ([repr] of a float, the builtin [sum], [json.dump] and
      [json.load]); they are an interface, and the only law ever assumed
      about them is that [json.load] reads back what [json.dump] wrote.
    - [M]: a state and exception monad over the manager's list, the
      expenses file and the standard output; every method of
      [ExpenseManager] is a computation in [M].

    Strings are sequences of 8-bit characters, read as the code points
    U+0000 to U+00FF.  Floats are the binary64 values of [SpecFloat]. *)

From Stdlib Require Import ZArith List String Ascii Bool Lia.
From Stdlib Require Import DecimalString SpecFloat.
Import ListNotations.

Local Open Scope string_scope.
Local Open Scope Z_scope.

(* ================================================================== *)
(** ** Python strings *)

Module PyStr.

(** The line feed that [\n] denotes inside the program's f-strings. *)
Definition nl : string := String (ascii_of_nat 10) EmptyString.

(** [c.lower()] for one code point below U+0100: the upper-case letters
    of that range are [A]..[Z] and U+00C0..U+00DE without the
    multiplication sign U+00D7; each maps to the code point 32 above. *)
Definition lower_char (c : ascii) : ascii :=
  let n := nat_of_ascii c in
  if ((65 <=? n) && (n <=? 90))%nat
     || ((192 <=? n) && (n <=? 222) && negb (n =? 215))%nat
  then ascii_of_nat (n + 32)
  else c.

(** [s.lower()] *)
Fixpoint lower (s : string) : string :=
  match s with
  | EmptyString => EmptyString
  | String c s' => String (lower_char c) (lower s')
  end.

(** [s.startswith(p)] *)
Definition startswith (s p : string) : bool := String.prefix p s.

(** Truth value of a string: non-empty. *)
Definition truthy (s : string) : bool :=
  match s with
  | EmptyString => false
  | String _ _ => true
  end.

End PyStr.

(* ================================================================== *)
(** ** Python integers *)

Module PyInt.

(** [str(n)], which is also how an f-string renders [{n}]. *)
Definition str (n : Z) : string := NilZero.string_of_int (Z.to_int n).

Fixpoint zeros (k : nat) : string :=
  match k with
  | O => EmptyString
  | S k' => String "0" (zeros k')
  end.

(** [format(n, '02d')]: the sign, then the digits of [|n|] padded with
    zeros on the left until sign and digits fill two columns. *)
Definition format_02d (n : Z) : string :=
  let sign := if n <? 0 then "-" else "" in
  let digits := str (Z.abs n) in
  sign ++ zeros (2 - String.length sign - String.length digits) ++ digits.

End PyInt.

(* ================================================================== *)
(** ** Python floats *)

(** binary64 *)
Definition float : Type := spec_float.

Module PyFloat.

Definition prec : Z := 53.
Definition emax : Z := 1024.

Definition zero : float := S754_zero false.

(** [x + y] *)
Definition add (x y : float) : float := SFadd prec emax x y.

(** Truth value of a float: [x != 0.0]; both zeros are false, NaN is
    true. *)
Definition truthy (x : float) : bool := negb (SFeqb x zero).

(** The binary64 value nearest to [m * 2^e]; [dyadic 9 (-1)] is [4.5]. *)
Definition dyadic (m e : Z) : float := binary_normalize prec emax m e false.

End PyFloat.

(* ================================================================== *)
(** ** The expense record

    [add_expense] builds a dictionary with exactly these six keys, and no
    method adds or removes a key; a record with one field per key holds the
    same data. *)

Record Expense : Type := mkExpense
  { id : Z;
    description : string;
    amount : float;
    category : string;
    date : string;
    created_at : string }.

Definition set_description (v : string) (e : Expense) : Expense :=
  mkExpense (id e) v (amount e) (category e) (date e) (created_at e).
Definition set_amount (v : float) (e : Expense) : Expense :=
  mkExpense (id e) (description e) v (category e) (date e) (created_at e).
Definition set_category (v : string) (e : Expense) : Expense :=
  mkExpense (id e) (description e) (amount e) v (date e) (created_at e).
Definition set_date (v : string) (e : Expense) : Expense :=
  mkExpense (id e) (description e) (amount e) (category e) v (created_at e).

(* ================================================================== *)
(** ** Library routines

    What the program calls and does not define.  [float_repr] is how an
    f-string renders a float field, [float_sum] is the builtin [sum] on an
    iterable of floats, [json_dumps es] is the text [json.dump(es, file,
    indent=4)] writes and [json_loads] is [json.load], [inl msg] standing
    for the exception it raises on text that is not an expense list. *)

Class Runtime : Type :=
  { float_repr : float -> string;
    float_sum : list float -> float;
    json_dumps : list Expense -> string;
    json_loads : string -> string + list Expense }.

(** The contract of the [json] module on expense lists. *)
Class JsonRoundTrip (rt : Runtime) : Prop :=
  json_loads_dumps : forall es : list Expense, json_loads (json_dumps es) = inr es.

(* ================================================================== *)
(** ** State, exceptions and the monad of the methods *)

(** [EXPENSES_FILE] on disk.  [contents] is [None] while the file does not
    exist.  [write_error] is [Some msg] when opening the file for writing
    raises [OSError(msg)]; the three methods that save have a handler for
    it.  A file that exists is taken to be readable: [load_expenses] has no
    handler, and a failure to read ends the program before any method
    runs. *)
Record File : Type := mkFile
  { contents : option string;
    write_error : option string }.

(** [expenses] is the attribute [self.expenses]; [stdout] holds the
    argument of every [print] so far, oldest first. *)
Record State : Type := mkState
  { expenses : list Expense;
    file : File;
    stdout : list string }.

(** An exception carries the text [str(e)] that the handlers print. *)
Inductive Result (A : Type) : Type :=
| Return (a : A)
| Raise (e : string).
Arguments Return {A} a.
Arguments Raise {A} e.

Definition M (A : Type) : Type := State -> Result A * State.

Definition ret {A} (a : A) : M A := fun s => (Return a, s).

Definition bind {A B} (m : M A) (k : A -> M B) : M B :=
  fun s =>
    match m s with
    | (Return a, s') => k a s'
    | (Raise e, s') => (Raise e, s')
    end.

Definition try_except (body : M unit) (handler : string -> M unit) : M unit :=
  fun s =>
    match body s with
    | (Return a, s') => (Return a, s')
    | (Raise e, s') => handler e s'
    end.

Declare Scope py_scope.
Delimit Scope py_scope with py.
Notation "x <- m ;; k" := (bind m (fun x => k))
  (at level 100, m at next level, right associativity) : py_scope.
Notation "m ;; k" := (bind m (fun _ => k))
  (at level 100, right associativity) : py_scope.
Local Open Scope py_scope.

Definition raise {A} (e : string) : M A := fun s => (Raise e, s).

Definition get_expenses : M (list Expense) := fun s => (Return (expenses s), s).

Definition set_expenses (es : list Expense) : M unit :=
  fun s => (Return tt, mkState es (file s) (stdout s)).

(** [print(msg)] *)
Definition print (msg : string) : M unit :=
  fun s => (Return tt, mkState (expenses s) (file s) (stdout s ++ [msg])).

(** [os.path.exists(EXPENSES_FILE)] followed by reading the whole file. *)
Definition read_file : M (option string) := fun s => (Return (contents (file s)), s).

(** [open(EXPENSES_FILE, 'w')], writing [text] and closing. *)
Definition write_file (text : string) : M unit :=
  fun s =>
    match write_error (file s) with
    | Some e => raise e s
    | None =>
        (Return tt,
         mkState (expenses s) (mkFile (Some text) (write_error (file s))) (stdout s))
    end.

(** [for x in xs: body(x)], for a body that neither breaks nor returns. *)
Fixpoint for_each {A} (xs : list A) (body : A -> M unit) : M unit :=
  match xs with
  | [] => ret tt
  | x :: xs' => body x ;; for_each xs' body
  end.

(** The state a computation leaves. *)
Definition exec {A} (m : M A) (s : State) : State := snd (m s).

(* ================================================================== *)
(** ** ExpenseManager *)

Section ExpenseManager.

Context {rt : Runtime}.

(** [load_expenses] has no handler: an exception of [json.load] leaves
    the method. *)
Definition load_expenses : M unit :=
  text <- read_file ;;
  match text with
  | Some t =>
      match json_loads t with
      | inr es => set_expenses es
      | inl e => raise e
      end
  | None => print "No expenses file found. Starting with an empty expenses list."
  end.

(** [__init__] *)
Definition init : M unit :=
  set_expenses [] ;;
  load_expenses.

Definition save_expenses : M unit :=
  es <- get_expenses ;;
  write_file (json_dumps es).

(** [now] is [datetime.now().strftime('%Y-%m-%d %H:%M:%S')]. *)
Definition add_expense (description : string) (amount : float)
    (category date : string) (now : string) : M unit :=
  try_except
    (es <- get_expenses ;;
     let expense :=
       {| id := Z.of_nat (List.length es) + 1;
          description := description;
          amount := amount;
          category := category;
          date := date;
          created_at := now |} in
     set_expenses (es ++ [expense]) ;;
     save_expenses ;;
     print ("Expense added: '" ++ description ++ "' of amount "
            ++ float_repr amount ++ " in category '" ++ category
            ++ "' on '" ++ date ++ "'."))
    (fun e => print ("Failed to add expense: " ++ e)).

Definition show_expense (expense : Expense) : string :=
  "Expense ID: " ++ PyInt.str (id expense) ++ PyStr.nl
  ++ "Description: " ++ description expense ++ PyStr.nl
  ++ "Amount: " ++ float_repr (amount expense) ++ PyStr.nl
  ++ "Category: " ++ category expense ++ PyStr.nl
  ++ "Date: " ++ date expense ++ PyStr.nl
  ++ "Created At: " ++ created_at expense ++ PyStr.nl.

Definition list_expenses : M unit :=
  es <- get_expenses ;;
  match es with
  | [] => print "No expenses found. Your expenses list is empty."
  | _ :: _ => for_each es (fun expense => print (show_expense expense))
  end.

(** The four guarded assignments of [edit_expense], applied to the
    dictionary the loop stopped at.  An argument that is [None] or has
    a false truth value leaves its key alone. *)
Definition assign_str (arg : option string) (set : string -> Expense -> Expense)
    (expense : Expense) : Expense :=
  match arg with
  | Some v => if PyStr.truthy v then set v expense else expense
  | None => expense
  end.

Definition assign_float (arg : option float) (set : float -> Expense -> Expense)
    (expense : Expense) : Expense :=
  match arg with
  | Some v => if PyFloat.truthy v then set v expense else expense
  | None => expense
  end.

Definition update_fields (description : option string) (amount : option float)
    (category date : option string) (expense : Expense) : Expense :=
  let expense := assign_str description set_description expense in
  let expense := assign_float amount set_amount expense in
  let expense := assign_str category set_category expense in
  assign_str date set_date expense.

(** The loop [for expense in self.expenses] up to its [return]: the list
    with the first dictionary whose id is [expense_id] updated in place,
    or [None] when the loop runs to its end. *)
Fixpoint edit_first (expense_id : Z) (description : option string)
    (amount : option float) (category date : option string)
    (es : list Expense) : option (list Expense) :=
  match es with
  | [] => None
  | expense :: rest =>
      if id expense =? expense_id
      then Some (update_fields description amount category date expense :: rest)
      else option_map (cons expense)
             (edit_first expense_id description amount category date rest)
  end.

Definition edit_expense (expense_id : Z) (description : option string)
    (amount : option float) (category date : option string) : M unit :=
  try_except
    (es <- get_expenses ;;
     match edit_first expense_id description amount category date es with
     | Some es' =>
         set_expenses es' ;;
         save_expenses ;;
         print ("Expense ID " ++ PyInt.str expense_id ++ " updated.")
     | None =>
         print ("Expense ID " ++ PyInt.str expense_id ++ " not found.")
     end)
    (fun e => print ("Failed to edit expense: " ++ e)).

Definition delete_expense (expense_id : Z) : M unit :=
  try_except
    (es <- get_expenses ;;
     set_expenses (filter (fun expense => negb (id expense =? expense_id)) es) ;;
     save_expenses ;;
     print ("Expense ID " ++ PyInt.str expense_id ++ " deleted."))
    (fun e => print ("Failed to delete expense: " ++ e)).

Definition report_line (expense : Expense) : string :=
  "Description: " ++ description expense
  ++ ", Amount: " ++ float_repr (amount expense)
  ++ ", Date: " ++ date expense.

(** [f"{year}-{month:02d}"] *)
Definition month_str (month year : Z) : string :=
  PyInt.str year ++ "-" ++ PyInt.format_02d month.

(** The comprehension of [monthly_report]. *)
Definition monthly_expenses (month year : Z) (es : list Expense) : list Expense :=
  filter (fun expense => PyStr.startswith (date expense) (month_str month year)) es.

Definition monthly_report (month year : Z) : M unit :=
  try_except
    (es <- get_expenses ;;
     match monthly_expenses month year es with
     | [] => print ("No expenses found for " ++ month_str month year ++ ".")
     | selected =>
         let total_amount := float_sum (map amount selected) in
         print ("Monthly Report for " ++ month_str month year ++ ":" ++ PyStr.nl
                ++ "Total Amount Spent: " ++ float_repr total_amount) ;;
         for_each selected (fun expense => print (report_line expense))
     end)
    (fun e => print ("Failed to generate monthly report: " ++ e)).

(** The comprehension of [category_report]. *)
Definition category_expenses (category_arg : string) (es : list Expense)
  : list Expense :=
  filter (fun expense =>
            String.eqb (PyStr.lower (category expense)) (PyStr.lower category_arg))
         es.

Definition category_report (category_arg : string) : M unit :=
  try_except
    (es <- get_expenses ;;
     match category_expenses category_arg es with
     | [] => print ("No expenses found in category '" ++ category_arg ++ "'.")
     | selected =>
         let total_amount := float_sum (map amount selected) in
         print ("Category Report for '" ++ category_arg ++ "':" ++ PyStr.nl
                ++ "Total Amount Spent: " ++ float_repr total_amount) ;;
         for_each selected (fun expense => print (report_line expense))
     end)
    (fun e => print ("Failed to generate category report: " ++ e)).

End ExpenseManager.

(* ================================================================== *)
(** ** A reference runtime

    An instance of [Runtime] that computes, so that every method can be
    run inside Rocq and the contract [JsonRoundTrip] is known to have a
    model.  [sum] adds from the left starting at zero.  The codec is a
    prefix code, not JSON: each field is written so that its end can be
    recognised without looking ahead. *)

Module Wire.

Definition parser (A : Type) : Type := string -> option (A * string).

Definition pmap {A B} (f : A -> B) (r : option (A * string)) : option (B * string) :=
  match r with
  | Some (a, rest) => Some (f a, rest)
  | None => None
  end.

Definition pbind {A B} (p : parser A) (k : A -> parser B) : parser B :=
  fun s =>
    match p s with
    | Some (a, rest) => k a rest
    | None => None
    end.

Definition put_bool (b : bool) : string := if b then "1" else "0".

Definition get_bool : parser bool :=
  fun s =>
    match s with
    | String c rest =>
        if Ascii.eqb c "1" then Some (true, rest)
        else if Ascii.eqb c "0" then Some (false, rest)
        else None
    | EmptyString => None
    end.

Fixpoint put_pos (p : positive) : string :=
  match p with
  | xH => "."
  | xO q => String "0" (put_pos q)
  | xI q => String "1" (put_pos q)
  end.

Fixpoint get_pos (s : string) : option (positive * string) :=
  match s with
  | String c rest =>
      if Ascii.eqb c "." then Some (xH, rest)
      else if Ascii.eqb c "0" then pmap xO (get_pos rest)
      else if Ascii.eqb c "1" then pmap xI (get_pos rest)
      else None
  | EmptyString => None
  end.

Definition put_Z (n : Z) : string :=
  match n with
  | Z0 => "0"
  | Zpos p => String "+" (put_pos p)
  | Zneg p => String "-" (put_pos p)
  end.

Definition get_Z : parser Z :=
  fun s =>
    match s with
    | String c rest =>
        if Ascii.eqb c "0" then Some (Z0, rest)
        else if Ascii.eqb c "+" then pmap Zpos (get_pos rest)
        else if Ascii.eqb c "-" then pmap Zneg (get_pos rest)
        else None
    | EmptyString => None
    end.

Fixpoint put_str (s : string) : string :=
  match s with
  | EmptyString => "."
  | String c s' => String "c" (String c (put_str s'))
  end.

Fixpoint get_str (s : string) : option (string * string) :=
  match s with
  | String t rest =>
      if Ascii.eqb t "." then Some (EmptyString, rest)
      else if Ascii.eqb t "c" then
        match rest with
        | String c rest' => pmap (String c) (get_str rest')
        | EmptyString => None
        end
      else None
  | EmptyString => None
  end.

Definition put_float (x : float) : string :=
  match x with
  | S754_zero b => String "z" (put_bool b)
  | S754_infinity b => String "i" (put_bool b)
  | S754_nan => "n"
  | S754_finite b m e => String "f" (put_bool b ++ put_pos m ++ put_Z e)
  end.

Definition get_float : parser float :=
  fun s =>
    match s with
    | String c rest =>
        if Ascii.eqb c "z" then pmap S754_zero (get_bool rest)
        else if Ascii.eqb c "i" then pmap S754_infinity (get_bool rest)
        else if Ascii.eqb c "n" then Some (S754_nan, rest)
        else if Ascii.eqb c "f" then
          pbind get_bool (fun b =>
          pbind get_pos (fun m =>
          pbind get_Z (fun e rest' => Some (S754_finite b m e, rest')))) rest
        else None
    | EmptyString => None
    end.

Definition put_expense (x : Expense) : string :=
  put_Z (id x) ++ put_str (description x) ++ put_float (amount x)
  ++ put_str (category x) ++ put_str (date x) ++ put_str (created_at x).

Definition get_expense : parser Expense :=
  pbind get_Z (fun i =>
  pbind get_str (fun d =>
  pbind get_float (fun a =>
  pbind get_str (fun c =>
  pbind get_str (fun dt =>
  pbind get_str (fun cr rest => Some (mkExpense i d a c dt cr, rest))))))).

Fixpoint put_items (es : list Expense) : string :=
  match es with
  | [] => EmptyString
  | x :: es' => put_expense x ++ put_items es'
  end.

Fixpoint get_items (n : nat) : parser (list Expense) :=
  match n with
  | O => fun s => Some ([], s)
  | S n' => pbind get_expense (fun x s => pmap (cons x) (get_items n' s))
  end.

Definition dumps (es : list Expense) : string :=
  put_Z (Z.of_nat (List.length es)) ++ put_items es.

Definition loads (s : string) : string + list Expense :=
  match pbind get_Z (fun n => get_items (Z.to_nat n)) s with
  | Some (es, EmptyString) => inr es
  | Some (_, String _ _) => inl "Extra data"
  | None => inl "Expecting value"
  end.

End Wire.

Definition reference_runtime : Runtime :=
  {| float_repr := Wire.put_float;
     float_sum := fun xs => fold_left PyFloat.add xs PyFloat.zero;
     json_dumps := Wire.dumps;
     json_loads := Wire.loads |}.

(* ================================================================== *)
(** ** Runs of several calls *)

(** The arguments of one call of [add_expense], with the clock reading
    the call sees. *)
Record Entry : Type := mkEntry
  { e_description : string;
    e_amount : float;
    e_category : string;
    e_date : string;
    e_now : string }.

Definition add_entry {rt : Runtime} (x : Entry) : M unit :=
  add_expense (e_description x) (e_amount x) (e_category x) (e_date x) (e_now x).

(** One [add_expense] per entry, in order. *)
Definition add_all {rt : Runtime} (xs : list Entry) : M unit :=
  for_each xs add_entry.

(** The dictionary [add_expense] builds for [x] when the list holds [n]
    records. *)
Definition new_expense (n : nat) (x : Entry) : Expense :=
  {| id := Z.of_nat n + 1;
     description := e_description x;
     amount := e_amount x;
     category := e_category x;
     date := e_date x;
     created_at := e_now x |}.

(** The records [add_all] appends to a list of [n] records. *)
Fixpoint appended (n : nat) (xs : list Entry) : list Expense :=
  match xs with
  | [] => []
  | x :: xs' => new_expense n x :: appended (S n) xs'
  end.

(** What a record keeps of the call that made it. *)
Definition entry_of (e : Expense) : Entry :=
  mkEntry (description e) (amount e) (category e) (date e) (created_at e).

(** The call [m] in state [s] prints at least one message, and the first
    one is not empty. *)
Definition prints_something (m : M unit) (s : State) : Prop :=
  exists msg rest,
    stdout (exec m s) = (stdout s ++ msg :: rest)%list /\ msg <> EmptyString.

(** The file holds the serialisation of the list in memory. *)
Definition in_sync {rt : Runtime} (s : State) : Prop :=
  contents (file s) = Some (json_dumps (expenses s)).

(** What either report prints once the selection is made: the message for
    an empty selection, or the header with the total and one line per
    selected record. *)
Definition report_output {rt : Runtime} (empty_msg header : string)
    (selected : list Expense) : list string :=
  match selected with
  | [] => [empty_msg]
  | _ :: _ =>
      (header ++ PyStr.nl ++ "Total Amount Spent: "
         ++ float_repr (float_sum (map amount selected)))
        :: map report_line selected
  end.

(** The integers [lo], [lo + 1], ..., [lo + n - 1]. *)
Fixpoint Z_range (lo : Z) (n : nat) : list Z :=
  match n with
  | O => []
  | S n' => lo :: Z_range (lo + 1) n'
  end.

(* ================================================================== *)
(** ** Sample data *)

Module Sample.

Definition coffee : Expense :=
  mkExpense 1 "Coffee" (PyFloat.dyadic 9 (-1)) "Food" "2024-03-01"
    "2024-03-01 09:00:00".

Definition rent : Expense :=
  mkExpense 2 "Rent" (PyFloat.dyadic 900 0) "Housing" "2024-03-02"
    "2024-03-02 08:30:00".

Definition january_a : Expense :=
  mkExpense 1 "Train" (PyFloat.dyadic 25 0) "Travel" "2024-01-15"
    "2024-01-15 07:45:00".

Definition february : Expense :=
  mkExpense 2 "Books" (PyFloat.dyadic 40 0) "Study" "2024-02-01"
    "2024-02-01 12:00:00".

Definition january_b : Expense :=
  mkExpense 3 "Lunch" (PyFloat.dyadic 19 (-1)) "Food" "2024-01-31"
    "2024-01-31 13:10:00".

Definition entry (d : string) : Entry :=
  mkEntry d (PyFloat.dyadic 3 0) "Misc" "2024-05-05" "2024-05-05 10:00:00".

Definition disk : File := mkFile None None.

Definition fresh : State := mkState [] disk [].

Definition one_record : State := mkState [coffee] disk [].

Definition two_records : State := mkState [coffee; rent] disk [].

Definition winter : State := mkState [january_a; february; january_b] disk [].

(** One record in memory and in the file, and a file that has since become
    read-only. *)
Definition locked : State :=
  mkState [coffee]
    (mkFile (Some (Wire.dumps [coffee]))
       (Some "[Errno 13] Permission denied: 'expenses.json'"))
    [].

End Sample.

(* ================================================================== *)
(** ** Sessions

    A session is a sequence of method calls on one manager, as the menu
    loop issues them. *)

Inductive Op : Type :=
| OpAdd (x : Entry)
| OpList
| OpEdit (expense_id : Z) (description : option string) (amount : option float)
    (category date : option string)
| OpDelete (expense_id : Z)
| OpMonthly (month year : Z)
| OpCategory (category : string).

Definition perform {rt : Runtime} (op : Op) : M unit :=
  match op with
  | OpAdd x => add_entry x
  | OpList => list_expenses
  | OpEdit i d a c dt => edit_expense i d a c dt
  | OpDelete i => delete_expense i
  | OpMonthly month year => monthly_report month year
  | OpCategory c => category_report c
  end.

Definition run {rt : Runtime} (ops : list Op) : M unit := for_each ops perform.

Definition is_delete (op : Op) : bool :=
  match op with
  | OpDelete _ => true
  | _ => false
  end.

(** What one call makes of the list, written without the file and the
    output: the function the methods are compared with. *)
Definition apply_op (op : Op) (es : list Expense) : list Expense :=
  match op with
  | OpAdd x => es ++ [new_expense (List.length es) x]
  | OpEdit i d a c dt =>
      match edit_first i d a c dt es with
      | Some es' => es'
      | None => es
      end
  | OpDelete i => filter (fun e => negb (id e =? i)) es
  | OpList | OpMonthly _ _ | OpCategory _ => es
  end.

(** The ids are 1, 2, ..., in the order of the list. *)
Definition ids_sequential (es : list Expense) : Prop :=
  map id es = map Z.of_nat (seq 1 (List.length es)).

(** A manager built on file [f] starts with the list [es]. *)
Definition reloads_to {rt : Runtime} (f : File) (es : list Expense) : Prop :=
  forall (es0 : list Expense) (out : list string),
    exists out', init (mkState es0 f out) = (Return tt, mkState es f out').

(** Every value of the four editable keys is true in Python's sense: the
    three strings are not empty and the amount is not zero. *)
Definition filled (e : Expense) : Prop :=
  PyStr.truthy (description e) = true
  /\ PyFloat.truthy (amount e) = true
  /\ PyStr.truthy (category e) = true
  /\ PyStr.truthy (date e) = true.

(* ================================================================== *)
(** ** The menu loop

    [main] reads lines from the standard input, converts some of them with
    [int] and [float], and reads the clock once per added expense.  The
    two conversions are library routines: [inl msg] stands for the
    [ValueError] they raise.  [stdin] holds the lines still to be read;
    [clock k] is what the [k]-th reading of the clock from now will
    return, formatted. *)

Class Builtins : Type :=
  { py_int : string -> string + Z;
    py_float : string -> string + float }.

Record Console : Type := mkConsole
  { manager : State;
    stdin : list string;
    clock : nat -> string }.

Definition IO (A : Type) : Type := Console -> Result A * Console.

Definition iret {A} (a : A) : IO A := fun c => (Return a, c).

Definition ibind {A B} (m : IO A) (k : A -> IO B) : IO B :=
  fun c =>
    match m c with
    | (Return a, c') => k a c'
    | (Raise e, c') => (Raise e, c')
    end.

Definition iraise {A} (e : string) : IO A := fun c => (Raise e, c).

Declare Scope io_scope.
Delimit Scope io_scope with io.
Notation "x <- m ;; k" := (ibind m (fun x => k))
  (at level 100, m at next level, right associativity) : io_scope.
Notation "m ;; k" := (ibind m (fun _ => k))
  (at level 100, right associativity) : io_scope.

(** A method call on the manager of the console. *)
Definition lift {A} (m : M A) : IO A :=
  fun c =>
    match m (manager c) with
    | (r, s) => (r, mkConsole s (stdin c) (clock c))
    end.

(** [input(prompt)]: the prompt goes to the standard output, where it is
    recorded like the argument of a [print] (it is written without the line
    feed that [print] adds); then one line is read, and [EOFError] is raised
    when there is none. *)
Definition input (prompt : string) : IO string :=
  fun c =>
    match lift (print prompt) c with
    | (_, c1) =>
        match stdin c1 with
        | [] => (Raise "EOF when reading a line", c1)
        | line :: rest => (Return line, mkConsole (manager c1) rest (clock c1))
        end
    end.

(** [datetime.now().strftime('%Y-%m-%d %H:%M:%S')] *)
Definition now : IO string :=
  fun c => (Return (clock c O), mkConsole (manager c) (stdin c) (fun k => clock c (S k))).

(** [x if x else None] *)
Definition or_none (x : string) : option string :=
  if PyStr.truthy x then Some x else None.

Definition menu : list string :=
  [PyStr.nl ++ "Expense Tracker" ++ PyStr.nl;
   "1. Add Expense";
   "2. List All Expenses";
   "3. Edit Expense";
   "4. Delete Expense";
   "5. View Monthly Report";
   "6. View Category Report";
   "7. Exit"].

Section Main.

Context {rt : Runtime} {bi : Builtins}.

(** [int(text)] and [float(text)] *)
Definition to_int (text : string) : IO Z :=
  match py_int text with
  | inr n => iret n
  | inl e => iraise e
  end.

Definition to_float (text : string) : IO float :=
  match py_float text with
  | inr x => iret x
  | inl e => iraise e
  end.

(** The chain of [if] and [elif] on the choice: [true] when the branch
    taken ends in [break]. *)
Definition dispatch (choice : string) : IO bool :=
  (if String.eqb choice "1" then
     description <- input "Enter expense description: " ;;
     amount_text <- input "Enter expense amount: " ;;
     amount <- to_float amount_text ;;
     category <- input "Enter expense category: " ;;
     date <- input "Enter expense date (YYYY-MM-DD): " ;;
     created <- now ;;
     lift (add_expense description amount category date created) ;;
     iret false
   else if String.eqb choice "2" then
     lift list_expenses ;;
     iret false
   else if String.eqb choice "3" then
     id_text <- input "Enter expense ID to edit: " ;;
     expense_id <- to_int id_text ;;
     description <- input "Enter new description (leave blank to keep current): " ;;
     amount_text <- input "Enter new amount (leave blank to keep current): " ;;
     category <- input "Enter new category (leave blank to keep current): " ;;
     date <- input "Enter new date (leave blank to keep current): " ;;
     amount <- (if PyStr.truthy amount_text
                then x <- to_float amount_text ;; iret (Some x)
                else iret None) ;;
     lift (edit_expense expense_id (or_none description) amount
             (or_none category) (or_none date)) ;;
     iret false
   else if String.eqb choice "4" then
     id_text <- input "Enter expense ID to delete: " ;;
     expense_id <- to_int id_text ;;
     lift (delete_expense expense_id) ;;
     iret false
   else if String.eqb choice "5" then
     month_text <- input "Enter month (1-12): " ;;
     month <- to_int month_text ;;
     year_text <- input "Enter year (e.g., 2024): " ;;
     year <- to_int year_text ;;
     lift (monthly_report month year) ;;
     iret false
   else if String.eqb choice "6" then
     category <- input "Enter category: " ;;
     lift (category_report category) ;;
     iret false
   else if String.eqb choice "7" then
     lift (print "Exiting Expense Tracker. Goodbye!") ;;
     iret true
   else
     lift (print "Invalid choice. Please try again.") ;;
     iret false)%io.

(** One turn of [while True]: the menu, the choice, the branch. *)
Definition menu_step : IO bool :=
  (lift (for_each menu print) ;;
   choice <- input "Enter your choice: " ;;
   dispatch choice)%io.

(** The loop, for at most [fuel] turns: [None] when the turns run out
    before the loop ends. *)
Fixpoint main_loop (fuel : nat) (c : Console) : option (Result unit * Console) :=
  match fuel with
  | O => None
  | S fuel' =>
      match menu_step c with
      | (Return true, c') => Some (Return tt, c')
      | (Return false, c') => main_loop fuel' c'
      | (Raise e, c') => Some (Raise e, c')
      end
  end.

(** [main()]: the constructor, then the loop. *)
Definition main (fuel : nat) (c : Console) : option (Result unit * Console) :=
  match lift init c with
  | (Return _, c') => main_loop fuel c'
  | (Raise e, c') => Some (Raise e, c')
  end.

End Main.

(** Every run of [m] relates the console it starts from to the console
    it leaves by [P], whether it returns or raises. *)
Definition keeps (P : Console -> Console -> Prop) {A} (m : IO A) : Prop :=
  forall c r c', m c = (r, c') -> P c c'.

(** [m] never returns [true]. *)
Definition never_breaks (m : IO bool) : Prop :=
  forall c c', m c <> (Return true, c').

(** The lines [c'] has still to read are the last lines [c] had to read. *)
Definition reads_ahead (c c' : Console) : Prop :=
  exists used, stdin c = (used ++ stdin c')%list.

(** The list in memory and the file are the same in [c'] as in [c]. *)
Definition same_store (c c' : Console) : Prop :=
  expenses (manager c') = expenses (manager c)
  /\ file (manager c') = file (manager c).

(** Conversions for sample runs: decimal digits with an optional minus
    sign, for both; the float is the integer read. *)
Definition reference_builtins : Builtins :=
  {| py_int := fun text =>
       match NilZero.int_of_string text with
       | Some d => inr (Z.of_int d)
       | None => inl ("invalid literal for int() with base 10: '" ++ text ++ "'")
       end;
     py_float := fun text =>
       match NilZero.int_of_string text with
       | Some d => inr (PyFloat.dyadic (Z.of_int d) 0)
       | None => inl ("could not convert string to float: '" ++ text ++ "'")
       end |}.

Module SampleRun.

Definition clock (k : nat) : string := "2024-06-01 12:00:0" ++ PyInt.str (Z.of_nat k).

Definition console (s : State) (lines : list string) : Console :=
  mkConsole s lines clock.

End SampleRun.

(* ================================================================== *)
(** * Properties *)

(** ** Strings *)

Lemma string_app_assoc (a b c : string) : (a ++ b) ++ c = a ++ (b ++ c).
Proof. induction a as [|x a IH]; simpl; [reflexivity | now rewrite IH]. Qed.

Lemma startswith_iff (s p : string) :
  PyStr.startswith s p = true <-> exists rest, s = p ++ rest.
Proof.
  unfold PyStr.startswith. revert s.
  induction p as [|a p IH]; intros s.
  - destruct s; simpl; split; eauto.
  - destruct s as [|b s]; simpl.
    + split; [discriminate | intros [rest H]; discriminate].
    + destruct (ascii_dec a b) as [->|Hne].
      * rewrite IH. split; intros [rest H]; exists rest.
        -- now rewrite H.
        -- now inversion H.
      * split; [discriminate | intros [rest H]; congruence].
Qed.

Lemma filter_nil_iff {A} (f : A -> bool) (l : list A) :
  filter f l = [] <-> forall x, In x l -> f x = false.
Proof.
  induction l as [|a l IH]; simpl.
  - split; [intros _ x [] | reflexivity].
  - destruct (f a) eqn:Ha.
    + split; [discriminate | intros H; specialize (H a (or_introl eq_refl)); congruence].
    + rewrite IH. split.
      * intros H x [<-|Hx]; auto.
      * intros H x Hx; auto.
Qed.

(** ** The monad *)

Section Methods.

Context {rt : Runtime}.

Lemma for_each_print {A} (f : A -> string) (xs : list A) (s : State) :
  for_each xs (fun x => print (f x)) s
  = (Return tt, mkState (expenses s) (file s) (stdout s ++ map f xs)).
Proof.
  revert s. induction xs as [|x xs IH]; intros s; simpl.
  - unfold ret. rewrite app_nil_r. now destruct s.
  - unfold bind at 1. unfold print at 1. rewrite IH. simpl.
    now rewrite <- app_assoc.
Qed.

(** [save_expenses] either replaces the contents of the file by the
    serialised list or raises before touching it. *)
Lemma save_expenses_eq (s : State) :
  save_expenses s
  = match write_error (file s) with
    | Some e => (Raise e, s)
    | None =>
        (Return tt,
         mkState (expenses s) (mkFile (Some (json_dumps (expenses s))) None) (stdout s))
    end.
Proof.
  unfold save_expenses, bind, get_expenses, write_file, raise.
  destruct (write_error (file s)) eqn:E; simpl; rewrite ?E; reflexivity.
Qed.

Lemma add_expense_eq (d : string) (a : float) (c dt now : string) (s : State) :
  add_expense d a c dt now s
  = let es := (expenses s ++ [new_expense (List.length (expenses s)) (mkEntry d a c dt now)])%list in
    (Return tt,
     match write_error (file s) with
     | Some e => mkState es (file s) (stdout s ++ ["Failed to add expense: " ++ e])
     | None =>
         mkState es (mkFile (Some (json_dumps es)) None)
           (stdout s
              ++ ["Expense added: '" ++ d ++ "' of amount " ++ float_repr a
                  ++ " in category '" ++ c ++ "' on '" ++ dt ++ "'."])
     end).
Proof.
  unfold add_expense, try_except, bind, get_expenses, set_expenses.
  rewrite save_expenses_eq. simpl.
  destruct (write_error (file s)); reflexivity.
Qed.

Lemma delete_expense_eq (i : Z) (s : State) :
  delete_expense i s
  = let es := filter (fun expense => negb (id expense =? i)) (expenses s) in
    (Return tt,
     match write_error (file s) with
     | Some e =>
         mkState es (file s)
           (stdout s ++ ["Failed to delete expense: " ++ e])
     | None =>
         mkState es (mkFile (Some (json_dumps es)) None)
           (stdout s ++ ["Expense ID " ++ PyInt.str i ++ " deleted."])
     end).
Proof.
  unfold delete_expense, try_except, bind, get_expenses, set_expenses.
  rewrite save_expenses_eq. simpl.
  destruct (write_error (file s)); reflexivity.
Qed.

Lemma edit_expense_eq (i : Z) (d : option string) (a : option float)
    (c dt : option string) (s : State) :
  edit_expense i d a c dt s
  = (Return tt,
     match edit_first i d a c dt (expenses s) with
     | None =>
         mkState (expenses s) (file s)
           (stdout s ++ ["Expense ID " ++ PyInt.str i ++ " not found."])
     | Some es =>
         match write_error (file s) with
         | Some e =>
             mkState es (file s) (stdout s ++ ["Failed to edit expense: " ++ e])
         | None =>
             mkState es (mkFile (Some (json_dumps es)) None)
               (stdout s ++ ["Expense ID " ++ PyInt.str i ++ " updated."])
         end
     end).
Proof.
  unfold edit_expense, try_except, bind, get_expenses.
  destruct (edit_first i d a c dt (expenses s)) as [es|]; [|reflexivity].
  unfold set_expenses. rewrite save_expenses_eq. simpl.
  destruct (write_error (file s)); reflexivity.
Qed.

Lemma list_expenses_eq (s : State) :
  list_expenses s
  = (Return tt,
     mkState (expenses s) (file s)
       (stdout s
          ++ match expenses s with
             | [] => ["No expenses found. Your expenses list is empty."]
             | es => map show_expense es
             end)).
Proof.
  unfold list_expenses, bind, get_expenses.
  destruct (expenses s) as [|e es] eqn:E; [unfold print; now rewrite E|].
  rewrite for_each_print. simpl. now rewrite E.
Qed.

Lemma monthly_report_eq (month year : Z) (s : State) :
  monthly_report month year s
  = (Return tt,
     mkState (expenses s) (file s)
       (stdout s
          ++ report_output
               ("No expenses found for " ++ month_str month year ++ ".")
               ("Monthly Report for " ++ month_str month year ++ ":")
               (monthly_expenses month year (expenses s)))).
Proof.
  unfold monthly_report, try_except, bind, get_expenses.
  destruct (monthly_expenses month year (expenses s)) as [|e l]; [reflexivity|].
  unfold print at 1. rewrite for_each_print.
  cbn [expenses file stdout report_output]. rewrite <- app_assoc.
  cbn [app]. now rewrite !string_app_assoc.
Qed.

Lemma category_report_eq (c : string) (s : State) :
  category_report c s
  = (Return tt,
     mkState (expenses s) (file s)
       (stdout s
          ++ report_output
               ("No expenses found in category '" ++ c ++ "'.")
               ("Category Report for '" ++ c ++ "':")
               (category_expenses c (expenses s)))).
Proof.
  unfold category_report, try_except, bind, get_expenses.
  destruct (category_expenses c (expenses s)) as [|e l]; [reflexivity|].
  unfold print at 1. rewrite for_each_print.
  cbn [expenses file stdout report_output]. rewrite <- app_assoc.
  cbn [app]. now rewrite !string_app_assoc.
Qed.

End Methods.

(** ** Reading operations *)

Section Reading.

Context {rt : Runtime}.

(** C10. [list_expenses], [monthly_report] and [category_report] leave
    the list in memory and the expenses file exactly as they found them,
    in every state and for every argument: they only print. *)
Theorem reports_leave_store_unchanged (s : State) (month year : Z) (c : string) :
  (expenses (exec list_expenses s) = expenses s
   /\ file (exec list_expenses s) = file s)
  /\ (expenses (exec (monthly_report month year) s) = expenses s
      /\ file (exec (monthly_report month year) s) = file s)
  /\ (expenses (exec (category_report c) s) = expenses s
      /\ file (exec (category_report c) s) = file s).
Proof.
  unfold exec.
  rewrite list_expenses_eq, monthly_report_eq, category_report_eq.
  simpl. auto.
Qed.

Lemma show_expense_nonempty (e : Expense) : show_expense e <> EmptyString.
Proof. unfold show_expense. simpl. discriminate. Qed.

Lemma report_output_nonempty (empty_msg header : string) (sel : list Expense) :
  empty_msg <> EmptyString ->
  exists msg rest, report_output empty_msg header sel = msg :: rest /\ msg <> EmptyString.
Proof.
  intros Hne. destruct sel as [|e l]; simpl.
  - now exists empty_msg, [].
  - eexists _, _. split; [reflexivity|].
    destruct header; simpl; [|discriminate].
    unfold PyStr.nl. simpl. discriminate.
Qed.

(** C9. On an empty list [list_expenses] prints the message that the
    list is empty; when no record matches, [monthly_report] and
    [category_report] each print the message that nothing was found for
    the month or the category.  In every state each of the three prints
    at least one message, and that message is not the empty string. *)
Theorem empty_results_are_reported (s : State) (month year : Z) (c : string) :
  (expenses s = [] ->
   stdout (exec list_expenses s)
   = (stdout s ++ ["No expenses found. Your expenses list is empty."])%list)
  /\ ((forall e rest, In e (expenses s) ->
                      date e <> month_str month year ++ rest) ->
      stdout (exec (monthly_report month year) s)
      = (stdout s
         ++ [("No expenses found for " ++ month_str month year ++ ".")%string])%list)
  /\ ((forall e, In e (expenses s) ->
                 PyStr.lower (category e) <> PyStr.lower c) ->
      stdout (exec (category_report c) s)
      = (stdout s
         ++ [("No expenses found in category '" ++ c ++ "'.")%string])%list)
  /\ (prints_something list_expenses s
      /\ prints_something (monthly_report month year) s
      /\ prints_something (category_report c) s).
Proof.
  unfold prints_something, exec.
  rewrite list_expenses_eq, monthly_report_eq, category_report_eq.
  cbn [snd stdout]. split; [|split; [|split; [|split; [|split]]]].
  - intros ->. reflexivity.
  - intros H. unfold monthly_expenses.
    replace (filter _ (expenses s)) with (@nil Expense); [reflexivity|].
    symmetry. apply filter_nil_iff. intros e He.
    destruct (PyStr.startswith (date e) (month_str month year)) eqn:E;
      [|reflexivity].
    apply startswith_iff in E. destruct E as [rest E]. now elim (H e rest He).
  - intros H. unfold category_expenses.
    replace (filter _ (expenses s)) with (@nil Expense); [reflexivity|].
    symmetry. apply filter_nil_iff. intros e He.
    apply String.eqb_neq. now apply H.
  - destruct (expenses s) as [|e l].
    + eexists _, _. split; [reflexivity | discriminate].
    + eexists _, _. split; [reflexivity | apply show_expense_nonempty].
  - destruct (report_output_nonempty
                ("No expenses found for " ++ month_str month year ++ ".")
                ("Monthly Report for " ++ month_str month year ++ ":")
                (monthly_expenses month year (expenses s)))
      as (msg & rest & -> & Hmsg); [discriminate|].
    now exists msg, rest.
  - destruct (report_output_nonempty
                ("No expenses found in category '" ++ c ++ "'.")
                ("Category Report for '" ++ c ++ "':")
                (category_expenses c (expenses s)))
      as (msg & rest & -> & Hmsg); [discriminate|].
    now exists msg, rest.
Qed.

End Reading.

(** Witness for C9: a state with no record at all. *)
Lemma empty_results_are_reported_witness :
  stdout (exec (list_expenses (rt := reference_runtime)) Sample.fresh)
  = ["No expenses found. Your expenses list is empty."]
  /\ stdout (exec (monthly_report (rt := reference_runtime) 1 2024) Sample.fresh)
     = ["No expenses found for 2024-01."]
  /\ stdout (exec (category_report (rt := reference_runtime) "Food") Sample.fresh)
     = ["No expenses found in category 'Food'."].
Proof.
  destruct (empty_results_are_reported (rt := reference_runtime)
              Sample.fresh 1 2024 "Food") as (H1 & H2 & H3 & _).
  split; [|split].
  - apply H1. reflexivity.
  - apply H2. intros e rest [].
  - apply H3. intros e [].
Defined.

(** ** Editing *)

(** [update_fields] never touches [id] and [created_at]; each of the other
    four keys takes the argument when it is given and true, and keeps its
    value otherwise. *)
Lemma update_fields_spec (d : option string) (a : option float)
    (c dt : option string) (e : Expense) :
  let e' := update_fields d a c dt e in
  id e' = id e
  /\ created_at e' = created_at e
  /\ description e'
     = match d with
       | Some v => if PyStr.truthy v then v else description e
       | None => description e
       end
  /\ amount e'
     = match a with
       | Some v => if PyFloat.truthy v then v else amount e
       | None => amount e
       end
  /\ category e'
     = match c with
       | Some v => if PyStr.truthy v then v else category e
       | None => category e
       end
  /\ date e'
     = match dt with
       | Some v => if PyStr.truthy v then v else date e
       | None => date e
       end.
Proof.
  unfold update_fields, assign_str, assign_float.
  destruct d as [d|]; [destruct (PyStr.truthy d)|];
    (destruct a as [a|]; [destruct (PyFloat.truthy a)|]);
    (destruct c as [c|]; [destruct (PyStr.truthy c)|]);
    (destruct dt as [dt|]; [destruct (PyStr.truthy dt)|]);
    simpl; repeat split; reflexivity.
Qed.

Lemma edit_first_none_iff (i : Z) (d : option string) (a : option float)
    (c dt : option string) (es : list Expense) :
  edit_first i d a c dt es = None <-> forall e, In e es -> id e <> i.
Proof.
  induction es as [|x es IH]; simpl.
  - split; [intros _ e [] | reflexivity].
  - destruct (Z.eqb_spec (id x) i) as [Heq|Hne].
    + split; [discriminate | intros H; now elim (H x (or_introl eq_refl))].
    + destruct (edit_first i d a c dt es) as [es'|]; simpl.
      * split; [discriminate|].
        intros H. assert (Some es' = None) as Habs; [|discriminate].
        apply IH. intros e He. apply H. now right.
      * split; [|reflexivity].
        intros _ e [<-|He]; [assumption|]. now apply (proj1 IH).
Qed.

(** The loop stops at the first record with the id: the records before it
    and all the records after it are the same objects as before. *)
Lemma edit_first_some (i : Z) (d : option string) (a : option float)
    (c dt : option string) (before after : list Expense) (e : Expense) :
  (forall x, In x before -> id x <> i) ->
  id e = i ->
  edit_first i d a c dt (before ++ e :: after)
  = Some (before ++ update_fields d a c dt e :: after)%list.
Proof.
  intros Hbefore He.
  induction before as [|x before IH]; simpl.
  - apply Z.eqb_eq in He. now rewrite He.
  - destruct (Z.eqb_spec (id x) i) as [Heq|Hne].
    + now elim (Hbefore x (or_introl eq_refl)).
    + rewrite IH; [reflexivity|]. intros y Hy. apply Hbefore. now right.
Qed.

Section Editing.

Context {rt : Runtime}.

(** C6. When no record of the list has the id, [edit_expense] returns
    with the list in memory and the expenses file unchanged, whatever the
    file holds (the method does not reach [save_expenses]), and the only
    thing it does is print that the id was not found. *)
Theorem edit_unknown_id_changes_nothing (s : State) (i : Z)
    (d : option string) (a : option float) (c dt : option string) :
  (forall e, In e (expenses s) -> id e <> i) ->
  edit_expense i d a c dt s
  = (Return tt,
     mkState (expenses s) (file s)
       (stdout s ++ [("Expense ID " ++ PyInt.str i ++ " not found.")%string])).
Proof.
  intros H. rewrite edit_expense_eq.
  apply (edit_first_none_iff i d a c dt) in H. now rewrite H.
Qed.

(** What [edit_expense] does to the list when some record has the id:
    the first such record gets [update_fields], nothing else moves. *)
Lemma edit_expense_known_id (s : State) (i : Z)
    (d : option string) (a : option float) (c dt : option string)
    (before after : list Expense) (e : Expense) :
  expenses s = (before ++ e :: after)%list ->
  (forall x, In x before -> id x <> i) ->
  id e = i ->
  expenses (exec (edit_expense i d a c dt) s)
  = (before ++ update_fields d a c dt e :: after)%list.
Proof.
  intros Hs Hbefore He. unfold exec. rewrite edit_expense_eq, Hs.
  rewrite (edit_first_some i d a c dt before after e Hbefore He).
  cbn [snd]. now destruct (write_error (file s)).
Qed.

(** C1, at the input where the code departs from it.  The list holds one
    record, with id 1 and amount 4.5.  [edit_expense(1, amount=0.0)]
    reports the record as updated, yet the amount is still 4.5 and the
    whole list is what it was: the argument [0.0] is not [None], but the
    guard [if amount:] reads it as false. *)
Theorem edit_zero_amount_is_dropped :
  let s := Sample.one_record in
  let s' := exec (edit_expense 1 None (Some PyFloat.zero) None None) s in
  expenses s' = [Sample.coffee]
  /\ amount Sample.coffee <> PyFloat.zero
  /\ stdout s' = ["Expense ID 1 updated."].
Proof.
  cbv zeta. unfold exec. rewrite edit_expense_eq.
  repeat split. discriminate.
Qed.

End Editing.

(** Witness for C6: id 7 in a list whose only record has id 1. *)
Lemma edit_unknown_id_changes_nothing_witness :
  edit_expense (rt := reference_runtime) 7 (Some "Tea") None None None
    (mkState [Sample.coffee] Sample.disk [])
  = (Return tt,
     mkState [Sample.coffee] Sample.disk ["Expense ID 7 not found."]).
Proof.
  apply (edit_unknown_id_changes_nothing (rt := reference_runtime)
           (mkState [Sample.coffee] Sample.disk []) 7).
  simpl. intros e [<-|[]]. simpl. lia.
Defined.

(** ** Adding and deleting *)

Section Mutations.

Context {rt : Runtime}.

Lemma add_entry_eq (x : Entry) (s : State) :
  exists s',
    add_entry x s = (Return tt, s')
    /\ expenses s' = (expenses s ++ [new_expense (List.length (expenses s)) x])%list.
Proof.
  unfold add_entry. rewrite add_expense_eq. destruct x as [d a c dt now].
  eexists. split; [reflexivity|].
  cbn [e_description e_amount e_category e_date e_now].
  now destruct (write_error (file s)).
Qed.

Lemma add_all_expenses (xs : list Entry) (s : State) :
  expenses (exec (add_all xs) s)
  = (expenses s ++ appended (List.length (expenses s)) xs)%list.
Proof.
  revert s. induction xs as [|x xs IH]; intros s.
  - simpl. now rewrite app_nil_r.
  - unfold exec, add_all in *. cbn [for_each]. unfold bind at 1.
    destruct (add_entry_eq x s) as (s1 & -> & Hs1).
    rewrite IH, Hs1, <- app_assoc, length_app. simpl.
    now rewrite Nat.add_1_r.
Qed.

Lemma appended_ids (n : nat) (xs : list Entry) :
  map id (appended n xs) = map Z.of_nat (seq (S n) (List.length xs)).
Proof.
  revert n. induction xs as [|x xs IH]; intros n; simpl; [reflexivity|].
  rewrite IH. f_equal. lia.
Qed.

Lemma appended_entries (n : nat) (xs : list Entry) :
  map entry_of (appended n xs) = xs.
Proof.
  revert n. induction xs as [|x xs IH]; intros n; simpl; [reflexivity|].
  rewrite IH. now destruct x.
Qed.

(** C2. Starting from an empty list, [add_expense] called once per entry
    of [xs] leaves one record per entry, in the order of the calls, with
    the ids 1, 2, ..., N.  Each single call, in any state, appends one
    record whose id is the length of the list plus one.  After the calls
    for two entries, deleting id 1 and adding once more leaves two
    records with the id 2. *)
Theorem add_assigns_length_plus_one :
  (forall (xs : list Entry) (f : File) (out : list string),
      let s' := exec (add_all xs) (mkState [] f out) in
      map id (expenses s') = map Z.of_nat (seq 1 (List.length xs))
      /\ map entry_of (expenses s') = xs)
  /\ (forall (x : Entry) (s : State),
         exists e,
           expenses (exec (add_entry x) s) = (expenses s ++ [e])%list
           /\ id e = Z.of_nat (List.length (expenses s)) + 1
           /\ entry_of e = x)
  /\ (exists (xs : list Entry) (i : Z) (x : Entry),
         map id
           (expenses
              (exec (add_all xs ;; delete_expense i ;; add_entry x) Sample.fresh))
         = [2; 2]).
Proof.
  split; [|split].
  - intros xs f out s'. subst s'. rewrite add_all_expenses. simpl.
    split; [apply appended_ids | apply appended_entries].
  - intros x s. exists (new_expense (List.length (expenses s)) x).
    unfold exec. destruct (add_entry_eq x s) as (s1 & -> & Hs1).
    split; [exact Hs1|]. split; [reflexivity | now destruct x].
  - exists [Sample.entry "Tea"; Sample.entry "Bus"], 1, (Sample.entry "Pen").
    vm_compute. reflexivity.
Qed.

Lemma delete_expense_expenses (s : State) (i : Z) :
  expenses (exec (delete_expense i) s)
  = filter (fun e => negb (id e =? i)) (expenses s).
Proof.
  unfold exec. rewrite delete_expense_eq. cbn [snd].
  now destruct (write_error (file s)).
Qed.

(** C3. [delete_expense] keeps, in their order, exactly the records whose
    id differs from the argument, so that no record with that id is left
    however many there were.  It then runs [save_expenses] on the resulting
    list with no test on whether any record had the id: the file it leaves
    is the file [save_expenses] leaves, and when the file can be written
    that is the serialisation of the resulting list. *)
Theorem delete_removes_every_match (s : State) (i : Z) :
  let kept := filter (fun e => negb (id e =? i)) (expenses s) in
  let s' := exec (delete_expense i) s in
  expenses s' = kept
  /\ (forall e, In e (expenses s') <-> In e (expenses s) /\ id e <> i)
  /\ file s' = file (exec save_expenses (mkState kept (file s) (stdout s)))
  /\ (write_error (file s) = None -> contents (file s') = Some (json_dumps kept)).
Proof.
  cbv zeta. split; [|split; [|split]].
  - apply delete_expense_expenses.
  - intros e. rewrite delete_expense_expenses, filter_In.
    now rewrite negb_true_iff, Z.eqb_neq.
  - unfold exec. rewrite delete_expense_eq, save_expenses_eq. cbn [snd file].
    now destruct (write_error (file s)).
  - intros Hw. unfold exec. rewrite delete_expense_eq. cbn [snd].
    now rewrite Hw.
Qed.

(** C8, as amended.  Whenever the file can be written, each of the three
    mutating methods ([add_expense], [edit_expense] on an id that some
    record has, [delete_expense]) returns with the file holding the
    serialisation of the list then in memory, whatever the file held
    before the call: every call writes, none defers. *)
Theorem mutations_are_persisted (s : State) :
  write_error (file s) = None ->
  (forall d a c dt now, in_sync (exec (add_expense d a c dt now) s))
  /\ (forall i d a c dt,
         (exists e, In e (expenses s) /\ id e = i) ->
         in_sync (exec (edit_expense i d a c dt) s))
  /\ (forall i, in_sync (exec (delete_expense i) s)).
Proof.
  intros Hw. unfold in_sync, exec. split; [|split].
  - intros. rewrite add_expense_eq. cbn. now rewrite Hw.
  - intros i d a c dt (e & He & Hid). rewrite edit_expense_eq. cbn [snd].
    destruct (edit_first i d a c dt (expenses s)) as [es|] eqn:E.
    + now rewrite Hw.
    + rewrite edit_first_none_iff in E. now elim (E e He).
  - intros. rewrite delete_expense_eq. cbn. now rewrite Hw.
Qed.

(** When the file cannot be written the handlers of the three methods
    print the error and return: the list in memory has changed and the
    file has not. *)
Lemma write_failure_keeps_mutation (s : State) (err : string) :
  write_error (file s) = Some err ->
  (forall d a c dt now,
      let s' := exec (add_expense d a c dt now) s in
      expenses s'
      = (expenses s ++ [new_expense (List.length (expenses s)) (mkEntry d a c dt now)])%list
      /\ file s' = file s
      /\ stdout s' = (stdout s ++ [("Failed to add expense: " ++ err)%string])%list)
  /\ (forall i d a c dt es',
         edit_first i d a c dt (expenses s) = Some es' ->
         let s' := exec (edit_expense i d a c dt) s in
         expenses s' = es'
         /\ file s' = file s
         /\ stdout s' = (stdout s ++ [("Failed to edit expense: " ++ err)%string])%list)
  /\ (forall i,
         let s' := exec (delete_expense i) s in
         expenses s' = filter (fun e => negb (id e =? i)) (expenses s)
         /\ file s' = file s
         /\ stdout s' = (stdout s ++ [("Failed to delete expense: " ++ err)%string])%list).
Proof.
  intros Hw. unfold exec. split; [|split].
  - intros. cbv zeta. rewrite add_expense_eq. cbn [snd]. now rewrite Hw.
  - intros i d a c dt es' E. cbv zeta. rewrite edit_expense_eq, E. cbn [snd].
    now rewrite Hw.
  - intros. cbv zeta. rewrite delete_expense_eq. cbn [snd]. now rewrite Hw.
Qed.

End Mutations.

(** ** The reference codec reads back what it writes *)

Module WireFacts.

Import Wire.

Lemma string_app_nil_r (s : string) : s ++ "" = s.
Proof. induction s as [|c s IH]; simpl; [reflexivity | now rewrite IH]. Qed.

Lemma get_bool_put (b : bool) (rest : string) :
  get_bool (put_bool b ++ rest) = Some (b, rest).
Proof. now destruct b. Qed.

Lemma get_pos_put (p : positive) (rest : string) :
  get_pos (put_pos p ++ rest) = Some (p, rest).
Proof. induction p as [p IH|p IH|]; simpl; rewrite ?IH; reflexivity. Qed.

Lemma get_Z_put (n : Z) (rest : string) :
  get_Z (put_Z n ++ rest) = Some (n, rest).
Proof. destruct n; simpl; rewrite ?get_pos_put; reflexivity. Qed.

Lemma get_str_put (s rest : string) :
  get_str (put_str s ++ rest) = Some (s, rest).
Proof. induction s as [|c s IH]; simpl; rewrite ?IH; reflexivity. Qed.

Lemma get_float_put (x : float) (rest : string) :
  get_float (put_float x ++ rest) = Some (x, rest).
Proof.
  destruct x as [b|b| |b m e]; simpl; rewrite ?get_bool_put; try reflexivity.
  unfold pbind. rewrite !string_app_assoc.
  now rewrite get_bool_put, get_pos_put, get_Z_put.
Qed.

Lemma get_expense_put (x : Expense) (rest : string) :
  get_expense (put_expense x ++ rest) = Some (x, rest).
Proof.
  unfold get_expense, put_expense, pbind. rewrite !string_app_assoc.
  rewrite get_Z_put, get_str_put, get_float_put, !get_str_put.
  now destruct x.
Qed.

Lemma get_items_put (es : list Expense) (rest : string) :
  get_items (List.length es) (put_items es ++ rest) = Some (es, rest).
Proof.
  induction es as [|x es IH]; simpl; [reflexivity|].
  unfold pbind. now rewrite string_app_assoc, get_expense_put, IH.
Qed.

Lemma loads_dumps (es : list Expense) : loads (dumps es) = inr es.
Proof.
  unfold loads, dumps, pbind.
  rewrite get_Z_put, Nat2Z.id.
  rewrite <- (string_app_nil_r (put_items es)).
  now rewrite get_items_put.
Qed.

End WireFacts.

Lemma reference_runtime_round_trip : JsonRoundTrip reference_runtime.
Proof. exact WireFacts.loads_dumps. Qed.

(** ** Saving and loading *)

Section RoundTrip.

Context {rt : Runtime} {json : JsonRoundTrip rt}.

Lemma load_expenses_in_sync (es es0 : list Expense) (f : File) (out : list string) :
  contents f = Some (json_dumps es) ->
  load_expenses (mkState es0 f out) = (Return tt, mkState es f out).
Proof.
  intros H. unfold load_expenses, bind, read_file. cbn [file contents].
  now rewrite H, json_loads_dumps.
Qed.

(** C7. Given that [json.load] reads back what [json.dump] wrote:
    [save_expenses] returns whenever the file can be written; and whenever
    it returns, [load_expenses] run on the file it left, from any list in
    memory, and also a new manager built by [__init__], ends with exactly
    the list that was saved: the same records, with the same fields, in
    the same order. *)
Theorem save_then_load_round_trip (s : State) :
  (write_error (file s) = None -> exists s1, save_expenses s = (Return tt, s1))
  /\ (forall s1,
         save_expenses s = (Return tt, s1) ->
         forall (es0 : list Expense) (out : list string),
           load_expenses (mkState es0 (file s1) out)
           = (Return tt, mkState (expenses s) (file s1) out)
           /\ init (mkState es0 (file s1) out)
              = (Return tt, mkState (expenses s) (file s1) out)).
Proof.
  rewrite save_expenses_eq. split.
  - intros ->. eauto.
  - intros s1 H es0 out.
    destruct (write_error (file s)); [discriminate|].
    injection H as <-. cbn [file].
    split; [now apply load_expenses_in_sync|].
    unfold init, bind, set_expenses. cbn [file stdout].
    now apply load_expenses_in_sync.
Qed.

End RoundTrip.

(** ** Reports *)

(** The months the menu asks for are printed on two columns. *)
Lemma format_02d_month (month : Z) :
  1 <= month <= 12 ->
  String.length (PyInt.format_02d month) = 2%nat
  /\ (month <= 9 -> PyInt.format_02d month = "0" ++ PyInt.str month)
  /\ (10 <= month -> PyInt.format_02d month = PyInt.str month).
Proof.
  intros H.
  assert (month = 1 \/ month = 2 \/ month = 3 \/ month = 4 \/ month = 5
          \/ month = 6 \/ month = 7 \/ month = 8 \/ month = 9 \/ month = 10
          \/ month = 11 \/ month = 12) as Hcases by lia.
  repeat (destruct Hcases as [-> | Hcases]); try subst month;
    (split; [reflexivity | split; intros; solve [reflexivity | lia]]).
Qed.

Lemma Z_range_In (lo : Z) (n : nat) (z : Z) :
  lo <= z < lo + Z.of_nat n -> In z (Z_range lo n).
Proof.
  revert lo. induction n as [|n IH]; intros lo H; simpl.
  - lia.
  - destruct (Z.eq_dec lo z) as [->|Hne]; [now left | right].
    apply IH. lia.
Qed.

(** A year of four digits is printed on four columns. *)
Lemma str_four_digit_year (year : Z) :
  1000 <= year <= 9999 -> String.length (PyInt.str year) = 4%nat.
Proof.
  intros H.
  assert (forallb (fun y => Nat.eqb (String.length (PyInt.str y)) 4)
            (Z_range 1000 (Z.to_nat 9000)) = true) as Hall
      by (vm_compute; reflexivity).
  rewrite forallb_forall in Hall.
  apply Nat.eqb_eq, Hall, Z_range_In. rewrite Z2Nat.id; lia.
Qed.

Lemma string_length_app (a b : string) :
  String.length (a ++ b) = (String.length a + String.length b)%nat.
Proof. induction a as [|c a IH]; simpl; [reflexivity | now rewrite IH]. Qed.

Section Reports.

Context {rt : Runtime}.

(** C4. [monthly_report] selects, in the order of the list, exactly the
    records whose date starts with the decimal year, a hyphen and the
    month printed with [02d]; for a year of four digits and a month from
    1 to 12 that prefix is seven characters, YYYY-MM.  When the selection
    is not empty the method prints the header with the [sum] of the
    amounts of the selected records, then one line per selected record.
    Of three records dated 2024-01-15, 2024-02-01 and 2024-01-31,
    [monthly_report(1, 2024)] selects the first and the third. *)
Theorem monthly_report_selects_by_prefix (s : State) (month year : Z) :
  let prefix := PyInt.str year ++ "-" ++ PyInt.format_02d month in
  let selected := monthly_expenses month year (expenses s) in
  selected = filter (fun e => PyStr.startswith (date e) prefix) (expenses s)
  /\ (forall e, In e selected
                <-> In e (expenses s) /\ exists rest, date e = prefix ++ rest)
  /\ (1000 <= year <= 9999 -> 1 <= month <= 12 -> String.length prefix = 7%nat)
  /\ (selected <> [] ->
      stdout (exec (monthly_report month year) s)
      = (stdout s
         ++ ("Monthly Report for " ++ prefix ++ ":" ++ PyStr.nl ++ "Total Amount Spent: "
             ++ float_repr (float_sum (map amount selected)))%string
            :: map report_line selected)%list)
  /\ monthly_expenses 1 2024 [Sample.january_a; Sample.february; Sample.january_b]
     = [Sample.january_a; Sample.january_b].
Proof.
  cbv zeta. split; [reflexivity|]. split; [|split; [|split]].
  - intros e. unfold monthly_expenses. rewrite filter_In, startswith_iff.
    reflexivity.
  - intros Hy Hm. rewrite !string_length_app, (str_four_digit_year year Hy).
    destruct (format_02d_month month Hm) as [-> _]. reflexivity.
  - intros Hsel. unfold exec. rewrite monthly_report_eq. cbn [snd stdout].
    destruct (monthly_expenses month year (expenses s)) as [|e l] eqn:E;
      [contradiction|].
    cbn [report_output]. unfold month_str. now rewrite !string_app_assoc.
  - reflexivity.
Qed.

(** C5. [category_report] selects, in the order of the list, exactly the
    records whose category, put in lower case, is equal to the argument
    put in lower case: the whole strings are compared, so "Seafood" is not
    selected for "food".  When the selection is not empty the method
    prints the header with the [sum] of the amounts of the selected
    records, then one line per selected record.  A record of category
    "Food" is selected for "food" and for "FOOD". *)
Theorem category_report_selects_case_insensitively (s : State) (c : string) :
  let selected := category_expenses c (expenses s) in
  (forall e, In e selected
             <-> In e (expenses s) /\ PyStr.lower (category e) = PyStr.lower c)
  /\ (selected <> [] ->
      stdout (exec (category_report c) s)
      = (stdout s
         ++ ("Category Report for '" ++ c ++ "':" ++ PyStr.nl
             ++ "Total Amount Spent: "
             ++ float_repr (float_sum (map amount selected)))%string
            :: map report_line selected)%list)
  /\ (forall e, In e (expenses s) -> category e = "Food" ->
                In e (category_expenses "food" (expenses s))
                /\ In e (category_expenses "FOOD" (expenses s)))
  /\ (forall e, category e = "Seafood" ->
                ~ In e (category_expenses "food" (expenses s))).
Proof.
  cbv zeta.
  assert (forall x e, In e (category_expenses x (expenses s))
                      <-> In e (expenses s)
                          /\ PyStr.lower (category e) = PyStr.lower x) as Hin.
  { intros x e. unfold category_expenses.
    now rewrite filter_In, String.eqb_eq. }
  split; [apply Hin|]. split; [|split].
  - intros Hsel. unfold exec. rewrite category_report_eq. cbn [snd stdout].
    destruct (category_expenses c (expenses s)) as [|e l] eqn:E;
      [contradiction|].
    cbn [report_output]. now rewrite !string_app_assoc.
  - intros e He Hc. rewrite !Hin, Hc. now repeat split.
  - intros e Hc. rewrite Hin, Hc. intros [_ H]. discriminate H.
Qed.

End Reports.

(** ** The statements at sample inputs *)

(** Witness for C3: deleting id 1 from a list of two records, then id 9
    that no record has; both calls write the file. *)
Lemma delete_removes_every_match_witness :
  expenses (exec (delete_expense (rt := reference_runtime) 1) Sample.two_records)
  = [Sample.rent]
  /\ contents (file (exec (delete_expense (rt := reference_runtime) 1)
                       Sample.two_records))
     = Some (Wire.dumps [Sample.rent])
  /\ contents (file (exec (delete_expense (rt := reference_runtime) 9)
                       Sample.two_records))
     = Some (Wire.dumps [Sample.coffee; Sample.rent]).
Proof.
  destruct (delete_removes_every_match (rt := reference_runtime)
              Sample.two_records 1) as (H1 & _ & _ & H3).
  destruct (delete_removes_every_match (rt := reference_runtime)
              Sample.two_records 9) as (_ & _ & _ & H3').
  split; [exact H1 | split; [apply H3 | apply H3']]; reflexivity.
Defined.

(** Witness for C8: the file does not exist before the call and holds the
    list after it. *)
Lemma mutations_are_persisted_witness :
  in_sync (rt := reference_runtime)
    (exec (add_expense (rt := reference_runtime) "Tea" (PyFloat.dyadic 3 0) "Food"
             "2024-03-03" "2024-03-03 16:00:00") Sample.one_record)
  /\ in_sync (rt := reference_runtime)
       (exec (edit_expense (rt := reference_runtime) 1 (Some "Espresso") None None None)
          Sample.one_record)
  /\ in_sync (rt := reference_runtime)
       (exec (delete_expense (rt := reference_runtime) 1) Sample.one_record).
Proof.
  destruct (mutations_are_persisted (rt := reference_runtime)
              Sample.one_record eq_refl) as (H1 & H2 & H3).
  split; [apply H1 | split; [apply H2 | apply H3]].
  exists Sample.coffee. split; [now left | reflexivity].
Defined.

(** Witness for C7: two records saved by one manager and loaded by the
    next. *)
Lemma save_then_load_round_trip_witness :
  exists s1,
    save_expenses (rt := reference_runtime) Sample.two_records = (Return tt, s1)
    /\ init (rt := reference_runtime) (mkState [] (file s1) [])
       = (Return tt, mkState [Sample.coffee; Sample.rent] (file s1) []).
Proof.
  destruct (save_then_load_round_trip (rt := reference_runtime)
              (json := reference_runtime_round_trip) Sample.two_records)
    as [Hsave Hload].
  destruct (Hsave eq_refl) as [s1 Hs1].
  exists s1. split; [exact Hs1|].
  exact (proj2 (Hload s1 Hs1 [] [])).
Defined.

(** Witness for C4: January 2024 in a list of three records. *)
Lemma monthly_report_selects_by_prefix_witness :
  String.length (PyInt.str 2024 ++ "-" ++ PyInt.format_02d 1) = 7%nat
  /\ (In Sample.january_b (monthly_expenses 1 2024 (expenses Sample.winter))
      <-> In Sample.january_b (expenses Sample.winter)
          /\ exists rest, date Sample.january_b = "2024-01" ++ rest)
  /\ stdout (exec (monthly_report (rt := reference_runtime) 1 2024) Sample.winter)
     = [("Monthly Report for 2024-01:" ++ PyStr.nl ++ "Total Amount Spent: "
         ++ float_repr (Runtime := reference_runtime)
              (float_sum (Runtime := reference_runtime)
                 [amount Sample.january_a; amount Sample.january_b]))%string;
        report_line (rt := reference_runtime) Sample.january_a;
        report_line (rt := reference_runtime) Sample.january_b].
Proof.
  destruct (monthly_report_selects_by_prefix (rt := reference_runtime)
              Sample.winter 1 2024) as (_ & Hin & Hlen & Hout & _).
  split; [apply Hlen; lia | split; [apply (Hin Sample.january_b) |]].
  apply Hout. discriminate.
Defined.

(** Witness for C5: the category "Food" asked for in capitals. *)
Lemma category_report_selects_case_insensitively_witness :
  In Sample.coffee (category_expenses "food" (expenses Sample.two_records))
  /\ In Sample.coffee (category_expenses "FOOD" (expenses Sample.two_records))
  /\ stdout (exec (category_report (rt := reference_runtime) "FOOD") Sample.two_records)
     = [("Category Report for 'FOOD':" ++ PyStr.nl ++ "Total Amount Spent: "
         ++ float_repr (Runtime := reference_runtime)
              (float_sum (Runtime := reference_runtime) [amount Sample.coffee]))%string;
        report_line (rt := reference_runtime) Sample.coffee].
Proof.
  destruct (category_report_selects_case_insensitively (rt := reference_runtime)
              Sample.two_records "FOOD") as (_ & Hout & Hfood & _).
  destruct (Hfood Sample.coffee (or_introl eq_refl) eq_refl) as [Hl Hu].
  split; [exact Hl | split; [exact Hu |]].
  apply Hout. discriminate.
Defined.

(** Counterexample to C8 as stated: the file holds the one record of the
    list and is read-only.  [add_expense] returns normally with two records
    in memory, prints that it failed, and the file still holds the one
    record: the list and the file differ. *)
Lemma mutations_are_persisted_counterexample :
  let s' :=
    exec (add_expense (rt := reference_runtime) "Tea" (PyFloat.dyadic 3 0) "Food"
            "2024-03-03" "2024-03-03 16:00:00") Sample.locked in
  in_sync (rt := reference_runtime) Sample.locked
  /\ List.length (expenses s') = 2%nat
  /\ option_map Wire.loads (contents (file s')) = Some (inr [Sample.coffee])
  /\ stdout s' = ["Failed to add expense: [Errno 13] Permission denied: 'expenses.json'"]
  /\ ~ in_sync (rt := reference_runtime) s'.
Proof.
  cbv zeta. repeat split. unfold in_sync. vm_compute. discriminate.
Defined.

(* ================================================================== *)
(** * Further properties of the methods *)

(** ** Sessions never leave a method by an exception *)

Section SessionBasics.

Context {rt : Runtime}.

Lemma perform_returns (op : Op) (s : State) :
  perform op s = (Return tt, exec (perform op) s).
Proof.
  unfold exec. destruct op; cbn [perform]; unfold add_entry;
    rewrite ?add_expense_eq, ?list_expenses_eq, ?edit_expense_eq,
      ?delete_expense_eq, ?monthly_report_eq, ?category_report_eq;
    reflexivity.
Qed.

Lemma run_cons (op : Op) (ops : list Op) (s : State) :
  run (op :: ops) s = run ops (exec (perform op) s).
Proof.
  unfold run. cbn [for_each]. unfold bind. now rewrite perform_returns.
Qed.


Lemma exec_run_cons (op : Op) (ops : list Op) (s : State) :
  exec (run (op :: ops)) s = exec (run ops) (exec (perform op) s).
Proof. unfold exec at 1. now rewrite run_cons. Qed.

(** Induction over a session for a property that every call keeps. *)
Lemma run_invariant (P : State -> Prop) (ok : Op -> Prop) :
  (forall op s, ok op -> P s -> P (exec (perform op) s)) ->
  forall ops s, Forall ok ops -> P s -> P (exec (run ops) s).
Proof.
  intros Hstep ops. induction ops as [|op ops IH]; intros s Hok Hs.
  - exact Hs.
  - rewrite exec_run_cons. inversion Hok; subst. apply IH; auto.
Qed.


(** X2. Building a manager never writes the file.  When the file does not
    exist the manager starts with the empty list and prints a notice; when
    the file holds a serialised list it starts with that list and prints
    nothing; when [json.load] rejects the contents the exception leaves the
    constructor, with the list still empty. *)
Theorem init_cases (s : State) :
  (contents (file s) = None ->
   init s
   = (Return tt,
      mkState [] (file s)
        (stdout s
           ++ ["No expenses file found. Starting with an empty expenses list."])))
  /\ (forall t es,
         contents (file s) = Some t -> json_loads t = inr es ->
         init s = (Return tt, mkState es (file s) (stdout s)))
  /\ (forall t e,
         contents (file s) = Some t -> json_loads t = inl e ->
         init s = (Raise e, mkState [] (file s) (stdout s))).
Proof.
  unfold init, load_expenses, bind, set_expenses, read_file.
  cbn [file expenses stdout]. repeat split.
  - intros ->. reflexivity.
  - intros t es -> ->. reflexivity.
  - intros t e -> ->. reflexivity.
Qed.

End SessionBasics.

(** ** What [edit_expense] keeps *)

(** The list [edit_first] returns has, position by position, either the
    record that was there or its update. *)
Lemma edit_first_pointwise (i : Z) (d : option string) (a : option float)
    (c dt : option string) (es es' : list Expense) :
  edit_first i d a c dt es = Some es' ->
  Forall2 (fun e e' => e' = e \/ e' = update_fields d a c dt e) es es'.
Proof.
  revert es'. induction es as [|x es IH]; intros es' H; simpl in H.
  - discriminate.
  - destruct (id x =? i).
    + injection H as <-. constructor; [now right|].
      clear IH. induction es as [|y l IH]; constructor; [now left | exact IH].
    + destruct (edit_first i d a c dt es) as [es1|]; [|discriminate].
      injection H as <-. constructor; [now left | now apply IH].
Qed.

Lemma update_fields_filled (d : option string) (a : option float)
    (c dt : option string) (e : Expense) :
  filled e -> filled (update_fields d a c dt e).
Proof.
  unfold filled. intros (Hd & Ha & Hc & Hdt).
  destruct (update_fields_spec d a c dt e) as (_ & _ & -> & -> & -> & ->).
  repeat split.
  - destruct d as [v|]; [destruct (PyStr.truthy v) eqn:E|]; auto.
  - destruct a as [v|]; [destruct (PyFloat.truthy v) eqn:E|]; auto.
  - destruct c as [v|]; [destruct (PyStr.truthy v) eqn:E|]; auto.
  - destruct dt as [v|]; [destruct (PyStr.truthy v) eqn:E|]; auto.
Qed.

Section EditKeeps.

Context {rt : Runtime}.

Lemma edit_expense_pointwise (s : State) (i : Z) (d : option string)
    (a : option float) (c dt : option string) :
  Forall2 (fun e e' => e' = e \/ e' = update_fields d a c dt e)
    (expenses s) (expenses (exec (edit_expense i d a c dt) s)).
Proof.
  unfold exec. rewrite edit_expense_eq. cbn [snd].
  destruct (edit_first i d a c dt (expenses s)) as [es|] eqn:E.
  - apply edit_first_pointwise in E. now destruct (write_error (file s)).
  - cbn [expenses]. clear E. induction (expenses s) as [|x l IH];
      constructor; [now left | exact IH].
Qed.

(** X3. Whatever its arguments and whether or not it finds the id or can
    write the file, [edit_expense] leaves the number of records, the id of
    every record and the creation time of every record as they were. *)
Theorem edit_keeps_ids_and_creation_times (s : State) (i : Z)
    (d : option string) (a : option float) (c dt : option string) :
  let s' := exec (edit_expense i d a c dt) s in
  List.length (expenses s') = List.length (expenses s)
  /\ map id (expenses s') = map id (expenses s)
  /\ map created_at (expenses s') = map created_at (expenses s).
Proof.
  cbv zeta. pose proof (edit_expense_pointwise s i d a c dt) as H.
  induction H as [|e e' es es' He _ IH]; [now repeat split|].
  destruct IH as (IH1 & IH2 & IH3).
  destruct (update_fields_spec d a c dt e) as (Hid & Hcr & _).
  cbn [List.length map]. rewrite IH1, IH2, IH3.
  destruct He as [->| ->]; rewrite ?Hid, ?Hcr; now repeat split.
Qed.

(** X4. A description, category or date cannot be made empty and an amount
    cannot be made zero by [edit_expense]: when every record of the list
    has four true values before the call, every record has after it. *)
Theorem edit_cannot_blank_a_field (s : State) (i : Z)
    (d : option string) (a : option float) (c dt : option string) :
  Forall filled (expenses s) ->
  Forall filled (expenses (exec (edit_expense i d a c dt) s)).
Proof.
  intros Hall. pose proof (edit_expense_pointwise s i d a c dt) as H.
  induction H as [|e e' es es' He _ IH]; [constructor|].
  inversion Hall; subst. constructor; [|now apply IH].
  destruct He as [->| ->]; [assumption | now apply update_fields_filled].
Qed.

(** X5. When two records share the id, [edit_expense] updates the first
    and leaves the second, like every other record, as it was. *)
Theorem edit_skips_later_duplicates (s : State) (i : Z)
    (d : option string) (a : option float) (c dt : option string)
    (before middle after : list Expense) (first second : Expense) :
  expenses s = (before ++ first :: middle ++ second :: after)%list ->
  (forall x, In x before -> id x <> i) ->
  id first = i ->
  id second = i ->
  expenses (exec (edit_expense i d a c dt) s)
  = (before ++ update_fields d a c dt first :: middle ++ second :: after)%list.
Proof.
  intros Hs Hbefore Hfirst _.
  now apply (edit_expense_known_id s i d a c dt before
               (middle ++ second :: after) first).
Qed.

(** The arguments of a call that has nothing to assign. *)
Lemma update_fields_nothing (d : option string) (a : option float)
    (c dt : option string) (e : Expense) :
  (forall v, d = Some v -> PyStr.truthy v = false) ->
  (forall v, a = Some v -> PyFloat.truthy v = false) ->
  (forall v, c = Some v -> PyStr.truthy v = false) ->
  (forall v, dt = Some v -> PyStr.truthy v = false) ->
  update_fields d a c dt e = e.
Proof.
  intros Hd Ha Hc Hdt. unfold update_fields, assign_str, assign_float.
  destruct d as [v|]; [rewrite (Hd v eq_refl)|];
    (destruct a as [w|]; [rewrite (Ha w eq_refl)|]);
    (destruct c as [x|]; [rewrite (Hc x eq_refl)|]);
    (destruct dt as [y|]; [rewrite (Hdt y eq_refl)|]);
    reflexivity.
Qed.

Lemma edit_first_nothing (i : Z) (d : option string) (a : option float)
    (c dt : option string) (es : list Expense) :
  (forall e, update_fields d a c dt e = e) ->
  (exists e, In e es /\ id e = i) ->
  edit_first i d a c dt es = Some es.
Proof.
  intros Hup. induction es as [|x es IH]; intros (e & He & Hid).
  - contradiction.
  - simpl. destruct (Z.eqb_spec (id x) i) as [Heq|Hne].
    + now rewrite Hup.
    + rewrite IH; [reflexivity|].
      destruct He as [<-|He]; [contradiction | eauto].
Qed.

(** X6. A call of [edit_expense] on an id the list has, in which every
    argument is [None], an empty string or a zero amount, changes no
    record; it still rewrites the file and reports the record as
    updated. *)
Theorem edit_with_nothing_to_change (s : State) (i : Z)
    (d : option string) (a : option float) (c dt : option string) :
  (forall v, d = Some v -> PyStr.truthy v = false) ->
  (forall v, a = Some v -> PyFloat.truthy v = false) ->
  (forall v, c = Some v -> PyStr.truthy v = false) ->
  (forall v, dt = Some v -> PyStr.truthy v = false) ->
  (exists e, In e (expenses s) /\ id e = i) ->
  write_error (file s) = None ->
  edit_expense i d a c dt s
  = (Return tt,
     mkState (expenses s) (mkFile (Some (json_dumps (expenses s))) None)
       (stdout s ++ [("Expense ID " ++ PyInt.str i ++ " updated.")%string])).
Proof.
  intros Hd Ha Hc Hdt Hin Hw. rewrite edit_expense_eq.
  rewrite edit_first_nothing; [now rewrite Hw | | assumption].
  intros e. now apply update_fields_nothing.
Qed.

End EditKeeps.

(** ** The list in memory over a session *)

Lemma filter_twice {A} (f : A -> bool) (l : list A) :
  filter f (filter f l) = filter f l.
Proof.
  induction l as [|x l IH]; simpl; [reflexivity|].
  destruct (f x) eqn:E; simpl; rewrite ?E, IH; reflexivity.
Qed.

Lemma filter_all {A} (f : A -> bool) (l : list A) :
  (forall x, In x l -> f x = true) -> filter f l = l.
Proof.
  induction l as [|x l IH]; intros H; simpl; [reflexivity|].
  rewrite (H x (or_introl eq_refl)), IH; [reflexivity|].
  intros y Hy. apply H. now right.
Qed.

Section SessionList.

Context {rt : Runtime}.

Lemma perform_expenses (op : Op) (s : State) :
  expenses (exec (perform op) s) = apply_op op (expenses s).
Proof.
  unfold exec. destruct op; cbn [perform apply_op]; unfold add_entry;
    rewrite ?add_expense_eq, ?list_expenses_eq, ?edit_expense_eq,
      ?delete_expense_eq, ?monthly_report_eq, ?category_report_eq;
    cbn [snd]; try reflexivity.
  - destruct x. now destruct (write_error (file s)).
  - destruct (edit_first expense_id description0 amount0 category0 date0 (expenses s));
      [now destruct (write_error (file s)) | reflexivity].
  - now destruct (write_error (file s)).
Qed.

Lemma perform_file_unwritable (op : Op) (s : State) (e : string) :
  write_error (file s) = Some e -> file (exec (perform op) s) = file s.
Proof.
  intros Hw. unfold exec. destruct op; cbn [perform]; unfold add_entry;
    rewrite ?add_expense_eq, ?list_expenses_eq, ?edit_expense_eq,
      ?delete_expense_eq, ?monthly_report_eq, ?category_report_eq;
    cbn [snd]; rewrite ?Hw; try reflexivity.
  now destruct (edit_first expense_id description0 amount0 category0 date0 (expenses s)).
Qed.

Lemma run_expenses (ops : list Op) (s : State) :
  expenses (exec (run ops) s)
  = fold_left (fun es op => apply_op op es) ops (expenses s).
Proof.
  revert s. induction ops as [|op ops IH]; intros s; [reflexivity|].
  rewrite exec_run_cons, IH, perform_expenses. reflexivity.
Qed.

(** X7. Over any session the list in memory is the fold of [apply_op] over
    the calls: what the list becomes depends neither on the file, nor on
    whether it can be written, nor on what has been printed.  When the
    file cannot be written the session leaves it exactly as it was. *)
Theorem session_list_ignores_the_file (ops : list Op) (s : State) :
  expenses (exec (run ops) s)
  = fold_left (fun es op => apply_op op es) ops (expenses s)
  /\ (forall e, write_error (file s) = Some e -> file (exec (run ops) s) = file s).
Proof.
  split; [apply run_expenses|].
  - intros e. revert s. induction ops as [|op ops IH]; intros s Hw; [reflexivity|].
    rewrite exec_run_cons.
    pose proof (perform_file_unwritable op s e Hw) as Hf.
    rewrite IH; [exact Hf | now rewrite Hf].
Qed.

(** X8. [delete_expense] on an id that no record has leaves the list as it
    is; when the file can be written the method still rewrites it and
    prints that the expense was deleted. *)
Theorem delete_unknown_id_still_reports (s : State) (i : Z) :
  (forall e, In e (expenses s) -> id e <> i) ->
  expenses (exec (delete_expense i) s) = expenses s
  /\ (write_error (file s) = None ->
      delete_expense i s
      = (Return tt,
         mkState (expenses s) (mkFile (Some (json_dumps (expenses s))) None)
           (stdout s ++ [("Expense ID " ++ PyInt.str i ++ " deleted.")%string]))).
Proof.
  intros H.
  assert (filter (fun e => negb (id e =? i)) (expenses s) = expenses s) as Hf.
  { apply filter_all. intros e He. apply negb_true_iff, Z.eqb_neq. now apply H. }
  split.
  - now rewrite delete_expense_expenses.
  - intros Hw. rewrite delete_expense_eq. cbv zeta. now rewrite Hf, Hw.
Qed.

(** X9. Deleting the same id twice leaves the list the first deletion
    left: the second call finds nothing to remove. *)
Theorem delete_twice_is_delete_once (s : State) (i : Z) :
  expenses (exec (run [OpDelete i; OpDelete i]) s)
  = expenses (exec (run [OpDelete i]) s).
Proof.
  rewrite !run_expenses. cbn [fold_left apply_op]. apply filter_twice.
Qed.

(** X10. [add_expense] followed by [delete_expense] on the id the new
    record received removes the new record and with it every older record
    that has the same id; the list is back to what it was exactly when no
    older record had that id. *)
Theorem add_then_delete_new_id (s : State) (x : Entry) :
  let new_id := Z.of_nat (List.length (expenses s)) + 1 in
  let s' := exec (run [OpAdd x; OpDelete new_id]) s in
  expenses s' = filter (fun e => negb (id e =? new_id)) (expenses s)
  /\ (expenses s' = expenses s <-> forall e, In e (expenses s) -> id e <> new_id).
Proof.
  cbv zeta.
  assert (expenses
            (exec (run [OpAdd x; OpDelete (Z.of_nat (List.length (expenses s)) + 1)]) s)
          = filter (fun e => negb (id e =? Z.of_nat (List.length (expenses s)) + 1))
              (expenses s)) as Heq.
  { rewrite run_expenses. cbn [fold_left apply_op].
    rewrite filter_app. cbn [filter new_expense id].
    rewrite Z.eqb_refl. cbn [negb]. now rewrite app_nil_r. }
  split; [exact Heq|]. rewrite Heq. split.
  - intros Hf e He. rewrite <- Hf in He. apply filter_In in He.
    destruct He as [_ He]. now apply negb_true_iff, Z.eqb_neq in He.
  - intros H. apply filter_all. intros e He.
    apply negb_true_iff, Z.eqb_neq. now apply H.
Qed.

End SessionList.

(** ** Ids over a session *)

Lemma ids_NoDup (n : nat) : NoDup (map Z.of_nat (seq 1 n)).
Proof.
  generalize (seq_NoDup n 1). generalize (seq 1 n).
  induction 1 as [|k l Hk _ IH]; cbn [map]; constructor; [|exact IH].
  rewrite in_map_iff. intros (j & Hj & Hin).
  apply Nat2Z.inj in Hj. now subst j.
Qed.

Lemma ids_In (n : nat) (z : Z) :
  In z (map Z.of_nat (seq 1 n)) <-> 1 <= z <= Z.of_nat n.
Proof.
  rewrite in_map_iff. split.
  - intros (k & <- & Hk). apply in_seq in Hk. lia.
  - intros H. exists (Z.to_nat z). split; [lia|]. apply in_seq. lia.
Qed.

Lemma pointwise_keeps_ids (d : option string) (a : option float)
    (c dt : option string) (es es' : list Expense) :
  Forall2 (fun e e' => e' = e \/ e' = update_fields d a c dt e) es es' ->
  map id es' = map id es /\ List.length es' = List.length es.
Proof.
  induction 1 as [|e e' es es' He _ [IH1 IH2]]; [now split|].
  cbn [map List.length]. rewrite IH1, IH2.
  destruct (update_fields_spec d a c dt e) as (Hid & _).
  destruct He as [->| ->]; rewrite ?Hid; now split.
Qed.

Lemma ids_sequential_add (es : list Expense) (x : Entry) :
  ids_sequential es -> ids_sequential (es ++ [new_expense (List.length es) x]).
Proof.
  unfold ids_sequential. intros H.
  rewrite map_app, length_app, H. cbn [List.length map new_expense id].
  rewrite Nat.add_1_r, seq_S, map_app. cbn [map]. do 2 f_equal. lia.
Qed.

Lemma apply_op_ids_sequential (op : Op) (es : list Expense) :
  is_delete op = false -> ids_sequential es -> ids_sequential (apply_op op es).
Proof.
  intros Hop H. destruct op; cbn [apply_op]; try assumption.
  - now apply ids_sequential_add.
  - destruct (edit_first expense_id description0 amount0 category0 date0 es)
      as [es'|] eqn:E; [|assumption].
    apply edit_first_pointwise, pointwise_keeps_ids in E.
    destruct E as [E1 E2]. unfold ids_sequential in *. now rewrite E1, E2.
  - discriminate.
Qed.

Lemma fold_adds (xs : list Entry) (es : list Expense) :
  fold_left (fun l op => apply_op op l) (map OpAdd xs) es
  = (es ++ appended (List.length es) xs)%list.
Proof.
  revert es. induction xs as [|x xs IH]; intros es; cbn [map fold_left appended].
  - now rewrite app_nil_r.
  - rewrite IH. cbn [apply_op]. rewrite <- app_assoc, length_app.
    cbn [List.length app]. now rewrite Nat.add_1_r.
Qed.

Lemma map_id_filter (i : Z) (es : list Expense) :
  map id (filter (fun e => negb (id e =? i)) es)
  = filter (fun z => negb (z =? i)) (map id es).
Proof.
  induction es as [|e es IH]; simpl; [reflexivity|].
  destruct (negb (id e =? i)); simpl; now rewrite IH.
Qed.

Lemma NoDup_snoc {A} (l : list A) (z : A) :
  NoDup (l ++ [z]) <-> NoDup l /\ ~ In z l.
Proof.
  induction l as [|y l IH]; cbn [app].
  - split; [intros _; split; [constructor | intros []] | intros _; repeat constructor].
    intros [].
  - rewrite !NoDup_cons_iff, IH, in_app_iff. cbn [In]. intuition congruence.
Qed.

(** How many of the ids 1..n are left when [i] is taken out. *)
Lemma length_ids_without (i : Z) (n : nat) :
  List.length (filter (fun z => negb (z =? i)) (map Z.of_nat (seq 1 n)))
  = if (1 <=? i) && (i <=? Z.of_nat n) then Nat.pred n else n.
Proof.
  induction n as [|n IH]; [now destruct ((1 <=? i) && (i <=? Z.of_nat 0))|].
  rewrite seq_S, map_app, filter_app, length_app, IH. cbn [map filter].
  destruct (Z.eqb_spec (Z.of_nat (1 + n)) i) as [Heq|Hne]; cbn [negb List.length];
    destruct (Z.leb_spec 1 i), (Z.leb_spec i (Z.of_nat n)),
      (Z.leb_spec i (Z.of_nat (S n))); cbn [andb]; lia.
Qed.

Section SessionIds.

Context {rt : Runtime}.

(** X11. In a session without [delete_expense], started on a list whose
    ids are 1, 2, ..., n in order (the empty list is one), the ids stay
    1, 2, ..., m in order after any calls of the other five methods, and no
    two records share an id. *)
Theorem ids_stay_sequential_without_delete (ops : list Op) (s : State) :
  Forall (fun op => is_delete op = false) ops ->
  ids_sequential (expenses s) ->
  ids_sequential (expenses (exec (run ops) s))
  /\ NoDup (map id (expenses (exec (run ops) s))).
Proof.
  intros Hops Hs.
  assert (ids_sequential (expenses (exec (run ops) s))) as H.
  { rewrite run_expenses. revert Hs. generalize (expenses s).
    induction Hops as [|op ops Hop _ IH]; intros es Hes; [exact Hes|].
    cbn [fold_left]. apply IH. now apply apply_op_ids_sequential. }
  split; [exact H|]. rewrite H. apply ids_NoDup.
Qed.

(** X12. After [add_expense] has been called for each of n entries on an
    empty list, [delete_expense(i)] followed by one more [add_expense]
    leaves two records with the same id exactly when 1 <= i < n: deleting
    the last record, or an id that is not there, keeps the ids distinct,
    deleting any other record makes the next id collide with the last
    one. *)
Theorem delete_then_add_collides (xs : list Entry) (i : Z) (x : Entry)
    (f : File) (out : list string) :
  let s' := exec (run (map OpAdd xs ++ [OpDelete i; OpAdd x])) (mkState [] f out) in
  NoDup (map id (expenses s')) <-> ~ (1 <= i < Z.of_nat (List.length xs)).
Proof.
  cbv zeta. rewrite run_expenses, fold_left_app, fold_adds.
  cbn [expenses app List.length fold_left apply_op].
  set (n := List.length xs).
  set (kept := filter (fun e => negb (id e =? i)) (appended 0 xs)).
  set (F := filter (fun z => negb (z =? i)) (map Z.of_nat (seq 1 n))).
  assert (map id kept = F) as Hkept
      by (unfold kept, F, n; now rewrite map_id_filter, appended_ids).
  assert (List.length kept = if (1 <=? i) && (i <=? Z.of_nat n) then Nat.pred n else n)
    as Hlen.
  { rewrite <- (length_map id kept), Hkept. apply length_ids_without. }
  assert (forall z, In z F <-> z <> i /\ 1 <= z <= Z.of_nat n) as HF.
  { intros z. unfold F. rewrite filter_In, ids_In, negb_true_iff, Z.eqb_neq. tauto. }
  assert (NoDup F) as HND by (apply NoDup_filter, ids_NoDup).
  assert (forall z, NoDup (F ++ [z]) <-> ~ In z F) as Happ
      by (intros z; rewrite NoDup_snoc; tauto).
  rewrite map_app, Hkept. cbn [map new_expense id]. rewrite Happ, HF, Hlen.
  destruct (Z.leb_spec 1 i), (Z.leb_spec i (Z.of_nat n)); cbn [andb]; lia.
Qed.

End SessionIds.

(** ** Restarting the program *)

Section Restart.

Context {rt : Runtime} {json : JsonRoundTrip rt}.

Lemma reloads_in_sync (f : File) (es : list Expense) :
  contents f = Some (json_dumps es) -> reloads_to f es.
Proof.
  intros H es0 out. exists out.
  unfold init, bind, set_expenses. cbn [file stdout].
  now apply load_expenses_in_sync.
Qed.

Lemma reloads_after_init (s0 s : State) :
  init s0 = (Return tt, s) -> reloads_to (file s) (expenses s).
Proof.
  unfold reloads_to, init, load_expenses, bind, set_expenses, read_file.
  cbn [file expenses stdout].
  destruct (contents (file s0)) as [t|] eqn:E.
  - destruct (json_loads t) as [e|es] eqn:L; [discriminate|].
    intros [= <-] es0 out. cbn [file expenses contents].
    rewrite E, L. eauto.
  - intros [= <-] es0 out. cbn [file expenses contents]. rewrite E.
    unfold print. cbn [file expenses stdout]. eauto.
Qed.

Lemma perform_keeps_reload (op : Op) (s : State) :
  write_error (file s) = None ->
  reloads_to (file s) (expenses s) ->
  write_error (file (exec (perform op) s)) = None
  /\ reloads_to (file (exec (perform op) s)) (expenses (exec (perform op) s)).
Proof.
  intros Hw Hr. unfold exec.
  destruct op; cbn [perform]; unfold add_entry;
    rewrite ?add_expense_eq, ?list_expenses_eq, ?edit_expense_eq,
      ?delete_expense_eq, ?monthly_report_eq, ?category_report_eq;
    cbv zeta; cbn [snd]; rewrite ?Hw; cbn [file expenses write_error];
    try (split; [assumption | exact Hr]);
    try (split; [reflexivity | now apply reloads_in_sync]).
  destruct (edit_first expense_id description0 amount0 category0 date0 (expenses s));
    cbn [file expenses write_error].
  - split; [reflexivity | now apply reloads_in_sync].
  - split; [assumption | exact Hr].
Qed.

(** X13. Given that [json.load] reads back what [json.dump] wrote and that
    the file can be written: after a manager has been built and any
    sequence of the six methods has run on it, a manager built anew on the
    file starts with exactly the list the first one has in memory. *)
Theorem restart_shows_the_same_list (s0 s : State) (ops : list Op) :
  write_error (file s0) = None ->
  init s0 = (Return tt, s) ->
  reloads_to (file (exec (run ops) s)) (expenses (exec (run ops) s)).
Proof.
  intros Hw Hinit.
  assert (write_error (file s) = None) as Hws.
  { revert Hinit. unfold init, load_expenses, bind, set_expenses, read_file.
    cbn [file expenses stdout].
    destruct (contents (file s0)) as [t|];
      [destruct (json_loads t); [discriminate|]|]; now intros [= <-]. }
  pose proof (reloads_after_init s0 s Hinit) as Hr.
  clear Hinit Hw. revert s Hws Hr.
  induction ops as [|op ops IH]; intros s Hws Hr; [exact Hr|].
  rewrite exec_run_cons.
  destruct (perform_keeps_reload op s Hws Hr) as [Hw' Hr'].
  now apply IH.
Qed.

End Restart.

(** ** Months do not overlap *)

Lemma string_app_inv_head (a b c : string) : a ++ b = a ++ c -> b = c.
Proof.
  induction a as [|x a IH]; cbn [append]; [auto|].
  intros H. injection H as H. now apply IH.
Qed.

Section Months.

Context {rt : Runtime}.

(** X14. For one year and two months from 1 to 12, no record is selected
    by [monthly_report] for both months unless they are the same month:
    the zero padding keeps, say, month 1 from matching the dates of
    October to December. *)
Theorem months_do_not_overlap (year m1 m2 : Z) (es : list Expense) (e : Expense) :
  1 <= m1 <= 12 ->
  1 <= m2 <= 12 ->
  In e (monthly_expenses m1 year es) ->
  In e (monthly_expenses m2 year es) ->
  m1 = m2.
Proof.
  intros H1 H2 Hin1 Hin2.
  unfold monthly_expenses in Hin1, Hin2.
  apply filter_In in Hin1, Hin2.
  destruct Hin1 as [_ Hp1]. destruct Hin2 as [_ Hp2].
  apply startswith_iff in Hp1, Hp2.
  destruct Hp1 as [r1 Hd1]. destruct Hp2 as [r2 Hd2].
  rewrite Hd1 in Hd2. unfold month_str in Hd2.
  rewrite !string_app_assoc in Hd2.
  apply string_app_inv_head in Hd2. cbn [append] in Hd2.
  injection Hd2 as Hd2.
  assert (m1 = 1 \/ m1 = 2 \/ m1 = 3 \/ m1 = 4 \/ m1 = 5 \/ m1 = 6 \/ m1 = 7
          \/ m1 = 8 \/ m1 = 9 \/ m1 = 10 \/ m1 = 11 \/ m1 = 12) as C1 by lia.
  assert (m2 = 1 \/ m2 = 2 \/ m2 = 3 \/ m2 = 4 \/ m2 = 5 \/ m2 = 6 \/ m2 = 7
          \/ m2 = 8 \/ m2 = 9 \/ m2 = 10 \/ m2 = 11 \/ m2 = 12) as C2 by lia.
  clear H1 H2 Hd1.
  repeat (destruct C1 as [-> | C1]); try subst m1;
    repeat (destruct C2 as [-> | C2]); try subst m2;
    solve [reflexivity | discriminate Hd2].
Qed.

End Months.

(* ================================================================== *)
(** * Properties of the menu loop *)

Lemma reads_ahead_refl (c : Console) : reads_ahead c c.
Proof. now exists []. Qed.

Lemma reads_ahead_trans (c1 c2 c3 : Console) :
  reads_ahead c1 c2 -> reads_ahead c2 c3 -> reads_ahead c1 c3.
Proof.
  intros [u1 H1] [u2 H2]. exists (u1 ++ u2)%list.
  now rewrite H1, H2, app_assoc.
Qed.

Lemma same_store_refl (c : Console) : same_store c c.
Proof. now split. Qed.

Lemma same_store_trans (c1 c2 c3 : Console) :
  same_store c1 c2 -> same_store c2 c3 -> same_store c1 c3.
Proof. intros [H1 H2] [H3 H4]. split; congruence. Qed.

Section Combinators.

Variable P : Console -> Console -> Prop.
Hypothesis P_refl : forall c, P c c.
Hypothesis P_trans : forall c1 c2 c3, P c1 c2 -> P c2 c3 -> P c1 c3.

Lemma keeps_iret {A} (a : A) : keeps P (iret a).
Proof. intros c r c' [= _ <-]. apply P_refl. Qed.

Lemma keeps_iraise {A} (e : string) : keeps P (@iraise A e).
Proof. intros c r c' [= _ <-]. apply P_refl. Qed.

Lemma keeps_ibind {A B} (m : IO A) (k : A -> IO B) :
  keeps P m -> (forall a, keeps P (k a)) -> keeps P (ibind m k).
Proof.
  intros Hm Hk c r c'. unfold ibind.
  destruct (m c) as [[a|e] c1] eqn:E.
  - intros H. apply (P_trans c c1 c'); [now apply (Hm c (Return a)) | now apply (Hk a c1 r)].
  - intros [= _ <-]. now apply (Hm c (Raise e)).
Qed.

Lemma keeps_if {A} (b : bool) (m1 m2 : IO A) :
  keeps P m1 -> keeps P m2 -> keeps P (if b then m1 else m2).
Proof. now destruct b. Qed.

End Combinators.

Lemma never_breaks_iret_false : never_breaks (iret false).
Proof. intros c c'. discriminate. Qed.

Lemma never_breaks_ibind {A} (m : IO A) (k : A -> IO bool) :
  (forall a, never_breaks (k a)) -> never_breaks (ibind m k).
Proof.
  intros Hk c c'. unfold ibind.
  destruct (m c) as [[a|e] c1]; [apply Hk | discriminate].
Qed.

Section MenuFacts.

Context {rt : Runtime} {bi : Builtins}.

Lemma input_eq (prompt : string) (c : Console) :
  input prompt c
  = let s := exec (print prompt) (manager c) in
    match stdin c with
    | [] => (Raise "EOF when reading a line", mkConsole s [] (clock c))
    | line :: rest => (Return line, mkConsole s rest (clock c))
    end.
Proof.
  unfold input, lift, print, exec. cbn [snd stdin manager clock].
  now destruct (stdin c).
Qed.

Lemma lift_perform (op : Op) (c : Console) :
  lift (perform op) c
  = (Return tt, mkConsole (exec (perform op) (manager c)) (stdin c) (clock c)).
Proof. unfold lift. now rewrite perform_returns. Qed.

Lemma lift_print (msg : string) (c : Console) :
  lift (print msg) c
  = (Return tt, mkConsole (exec (print msg) (manager c)) (stdin c) (clock c)).
Proof. reflexivity. Qed.

Lemma lift_menu (c : Console) :
  lift (for_each menu print) c
  = (Return tt,
     mkConsole (mkState (expenses (manager c)) (file (manager c))
                  (stdout (manager c) ++ menu))
       (stdin c) (clock c)).
Proof.
  pose proof (for_each_print (fun x => x) menu (manager c)) as H.
  rewrite map_id in H. unfold lift.
  change (for_each menu print) with (for_each menu (fun x => print x)).
  now rewrite H.
Qed.

(** *** What the steps of a turn read *)

Lemma reads_input (prompt : string) : keeps reads_ahead (input prompt).
Proof.
  intros c r c'. rewrite input_eq. cbv zeta.
  destruct (stdin c) as [|line rest] eqn:E; intros [= _ <-]; cbn [stdin].
  - exists []. now rewrite E.
  - exists [line]. now rewrite E.
Qed.

Lemma reads_lift {A} (m : M A) : keeps reads_ahead (lift m).
Proof.
  intros c r c'. unfold lift. destruct (m (manager c)) as [r1 s1].
  intros [= _ <-]. now exists [].
Qed.

Lemma reads_now : keeps reads_ahead now.
Proof. intros c r c' [= _ <-]. now exists []. Qed.

Lemma reads_to_int (text : string) : keeps reads_ahead (to_int text).
Proof.
  unfold to_int. destruct (py_int text);
    [apply keeps_iraise | apply keeps_iret]; apply reads_ahead_refl.
Qed.

Lemma reads_to_float (text : string) : keeps reads_ahead (to_float text).
Proof.
  unfold to_float. destruct (py_float text);
    [apply keeps_iraise | apply keeps_iret]; apply reads_ahead_refl.
Qed.

Lemma reads_dispatch (choice : string) : keeps reads_ahead (dispatch choice).
Proof.
  unfold dispatch.
  repeat first
    [ apply keeps_if
    | apply (keeps_ibind reads_ahead reads_ahead_trans); [|intros ?]
    | apply reads_input
    | apply reads_lift
    | apply reads_now
    | apply reads_to_int
    | apply reads_to_float
    | apply (keeps_iret reads_ahead reads_ahead_refl) ].
Qed.

Lemma dispatch_breaks_on_7 (choice : string) (c c' : Console) :
  dispatch choice c = (Return true, c') -> choice = "7".
Proof.
  unfold dispatch.
  repeat match goal with
         | |- context [String.eqb choice ?k] =>
             destruct (String.eqb_spec choice k) as [->|_]
         end;
    try reflexivity;
    intros H; exfalso; revert H;
    repeat first [ apply never_breaks_ibind; intros ?
                 | apply never_breaks_iret_false ].
Qed.

End MenuFacts.

Section MenuLoop.

Context {rt : Runtime} {bi : Builtins}.

Lemma menu_step_eq (c : Console) :
  menu_step c
  = let s :=
      mkState (expenses (manager c)) (file (manager c))
        ((stdout (manager c) ++ menu) ++ ["Enter your choice: "]) in
    match stdin c with
    | [] => (Raise "EOF when reading a line", mkConsole s [] (clock c))
    | choice :: rest => dispatch choice (mkConsole s rest (clock c))
    end.
Proof.
  unfold menu_step, ibind. rewrite lift_menu, input_eq.
  cbn [manager stdin clock]. now destruct (stdin c).
Qed.

(** A turn that returns has read its choice and possibly more lines, and
    it returns [true] only for the choice 7. *)
Lemma menu_step_reads (c c' : Console) (b : bool) :
  menu_step c = (Return b, c') ->
  exists choice used,
    stdin c = (choice :: used ++ stdin c')%list /\ (b = true -> choice = "7").
Proof.
  rewrite menu_step_eq. cbv zeta.
  destruct (stdin c) as [|choice rest]; [discriminate|].
  intros H. exists choice.
  destruct (reads_dispatch choice _ _ _ H) as [used Hused].
  cbn [stdin] in Hused. exists used. split; [now rewrite Hused|].
  intros ->. exact (dispatch_breaks_on_7 choice _ c' H).
Qed.

Lemma main_loop_ends (n : nat) (c : Console) :
  (List.length (stdin c) < n)%nat -> exists r, main_loop n c = Some r.
Proof.
  revert c. induction n as [|n IH]; intros c Hn; [lia|].
  cbn [main_loop]. destruct (menu_step c) as [[[|]|e] c1] eqn:E; eauto.
  apply IH. destruct (menu_step_reads c c1 false E) as (choice & used & Hs & _).
  rewrite Hs in Hn. cbn [List.length] in Hn. rewrite length_app in Hn. lia.
Qed.

Lemma main_loop_returns_on_7 (n : nat) (c c' : Console) :
  main_loop n c = Some (Return tt, c') -> In "7"%string (stdin c).
Proof.
  revert c. induction n as [|n IH]; intros c; [discriminate|].
  cbn [main_loop]. destruct (menu_step c) as [[[|]|e] c1] eqn:E.
  - intros _. destruct (menu_step_reads c c1 true E) as (choice & used & Hs & H7).
    rewrite Hs, (H7 eq_refl). now left.
  - intros H. apply IH in H.
    destruct (menu_step_reads c c1 false E) as (choice & used & Hs & _).
    rewrite Hs. right. apply in_or_app. now right.
  - discriminate.
Qed.

Lemma main_loop_more_fuel (n m : nat) (c : Console) (r : Result unit * Console) :
  main_loop n c = Some r -> (n <= m)%nat -> main_loop m c = Some r.
Proof.
  revert m c. induction n as [|n IH]; intros m c H Hm; [discriminate|].
  destruct m as [|m]; [lia|]. cbn [main_loop] in *.
  destruct (menu_step c) as [[[|]|e] c1]; try exact H.
  apply IH; [exact H | lia].
Qed.

Lemma lift_init_stdin (c c1 : Console) (r : Result unit) :
  lift init c = (r, c1) -> stdin c1 = stdin c.
Proof.
  unfold lift. destruct (init (manager c)) as [r1 s1]. now intros [= _ <-].
Qed.

Lemma main_ends (c : Console) :
  exists r, main (S (List.length (stdin c))) c = Some r.
Proof.
  unfold main. destruct (lift init c) as [[[]|e] c1] eqn:E; [|eauto].
  apply main_loop_ends. rewrite (lift_init_stdin c c1 _ E). lia.
Qed.

(** X15. On every finite input [main] comes to an end: with one turn more
    than there are lines to read, the constructor has raised, or the loop
    has left through [break] or been ended by an exception; the turns never
    run out. *)
Theorem main_terminates (c : Console) :
  main (S (List.length (stdin c))) c <> None
  /\ forall n, (List.length (stdin c) < n)%nat ->
               main n c = main (S (List.length (stdin c))) c.
Proof.
  split.
  - destruct (main_ends c) as [r ->]. discriminate.
  - intros n Hn. unfold main.
    destruct (lift init c) as [[[]|e] c1] eqn:E; [|reflexivity].
    rewrite <- (lift_init_stdin c c1 _ E).
    rewrite <- (lift_init_stdin c c1 _ E) in Hn.
    destruct (main_loop_ends (S (List.length (stdin c1))) c1 ltac:(lia)) as [r Hr].
    rewrite Hr. apply (main_loop_more_fuel _ n c1 r Hr). lia.
Qed.

(** X16. [main] returns normally only when the line 7 is among the lines
    it was given; on an input without that line it ends by an
    exception, at the latest the [EOFError] of the [input] that finds
    nothing to read. *)
Theorem main_returns_only_on_7 (c : Console) :
  (forall n c', main n c = Some (Return tt, c') -> In "7"%string (stdin c))
  /\ (~ In "7"%string (stdin c) ->
      exists e c', main (S (List.length (stdin c))) c = Some (Raise e, c')).
Proof.
  assert (forall n c', main n c = Some (Return tt, c') -> In "7"%string (stdin c)) as H.
  { intros n c'. unfold main.
    destruct (lift init c) as [[[]|e] c1] eqn:E; [|discriminate].
    intros H. apply main_loop_returns_on_7 in H.
    now rewrite (lift_init_stdin c c1 _ E) in H. }
  split; [exact H|]. intros Hno.
  destruct (main_ends c) as [[[[]|e] c'] Hr].
  - elim Hno. exact (H _ _ Hr).
  - eauto.
Qed.

End MenuLoop.

(** ** What a turn does to the list and the file *)

Section MenuStore.

Context {rt : Runtime} {bi : Builtins}.

Lemma store_input (prompt : string) : keeps same_store (input prompt).
Proof.
  intros c r c'. rewrite input_eq. cbv zeta.
  destruct (stdin c); intros [= _ <-]; now split.
Qed.

Lemma store_now : keeps same_store now.
Proof. intros c r c' [= _ <-]. now split. Qed.

Lemma store_to_int (text : string) : keeps same_store (to_int text).
Proof.
  unfold to_int. destruct (py_int text);
    [apply keeps_iraise | apply keeps_iret]; apply same_store_refl.
Qed.

Lemma store_to_float (text : string) : keeps same_store (to_float text).
Proof.
  unfold to_float. destruct (py_float text);
    [apply keeps_iraise | apply keeps_iret]; apply same_store_refl.
Qed.

Lemma store_lift_print (msg : string) : keeps same_store (lift (print msg)).
Proof. intros c r c' [= _ <-]. now split. Qed.

Lemma store_lift_list : keeps same_store (lift list_expenses).
Proof.
  intros c r c'. unfold lift. rewrite list_expenses_eq.
  intros [= _ <-]. now split.
Qed.

Lemma store_lift_monthly (month year : Z) :
  keeps same_store (lift (monthly_report month year)).
Proof.
  intros c r c'. unfold lift. rewrite monthly_report_eq.
  intros [= _ <-]. now split.
Qed.

Lemma store_lift_category (category : string) :
  keeps same_store (lift (category_report category)).
Proof.
  intros c r c'. unfold lift. rewrite category_report_eq.
  intros [= _ <-]. now split.
Qed.

Lemma store_dispatch (choice : string) :
  choice <> "1" -> choice <> "3" -> choice <> "4" ->
  keeps same_store (dispatch choice).
Proof.
  intros H1 H3 H4. unfold dispatch.
  destruct (String.eqb_spec choice "1") as [E|_]; [contradiction|].
  destruct (String.eqb_spec choice "2") as [_|_];
    [|destruct (String.eqb_spec choice "3") as [E|_]; [contradiction|];
      destruct (String.eqb_spec choice "4") as [E|_]; [contradiction|]];
    repeat first
      [ apply keeps_if
      | apply (keeps_ibind same_store same_store_trans); [|intros ?]
      | apply store_input
      | apply store_to_int
      | apply store_lift_list
      | apply store_lift_monthly
      | apply store_lift_category
      | apply store_lift_print
      | apply (keeps_iret same_store same_store_refl) ].
Qed.

(** X17. A turn of the loop whose choice is not 1, 3 or 4 leaves the list
    in memory and the file as they were, however the turn ends: by going
    on, by [break], by an [int] that rejects the month or the year, or by
    the end of the input. *)
Theorem other_choices_keep_the_store (c c' : Console) (r : Result bool) :
  (forall choice rest,
      stdin c = choice :: rest ->
      choice <> "1"%string /\ choice <> "3"%string /\ choice <> "4"%string) ->
  menu_step c = (r, c') ->
  same_store c c'.
Proof.
  intros Hc. rewrite menu_step_eq. cbv zeta.
  destruct (stdin c) as [|choice rest].
  - intros [= _ <-]. now split.
  - destruct (Hc choice rest eq_refl) as (H1 & H3 & H4). intros H.
    destruct (store_dispatch choice H1 H3 H4 _ _ _ H) as [He Hf].
    split; [exact He | exact Hf].
Qed.

(** X18. A choice that is none of the seven digits, a digit with a blank
    before or after it for one, is answered by the message that the choice
    is invalid; the turn reads nothing more and the loop goes on. *)
Theorem invalid_choice_goes_on (c : Console) (choice : string) (rest : list string) :
  stdin c = choice :: rest ->
  ~ In choice ["1"; "2"; "3"; "4"; "5"; "6"; "7"]%string ->
  menu_step c
  = (Return false,
     mkConsole
       (mkState (expenses (manager c)) (file (manager c))
          (stdout (manager c) ++ menu
             ++ ["Enter your choice: "; "Invalid choice. Please try again."]))
       rest (clock c)).
Proof.
  intros Hs Hno. rewrite menu_step_eq, Hs. cbv zeta. unfold dispatch.
  repeat match goal with
         | |- context [String.eqb choice ?k] =>
             destruct (String.eqb_spec choice k) as [E|_];
             [elim Hno; rewrite E; cbn [In]; tauto|]
         end.
  unfold ibind. rewrite lift_print. unfold iret, exec, print.
  cbn [snd manager stdin clock expenses file stdout].
  now rewrite <- !app_assoc.
Qed.

(** X19. [main] has no handler around [int] and [float]: when the answer
    to the id prompt of choices 3 and 4, to the month prompt of choice 5 or
    to the amount prompt of choice 1 is a text the conversion rejects, the
    loop ends there with that exception, and the list and the file are as
    they were before the turn. *)
Theorem bad_number_ends_the_program (fuel : nat) (c : Console) (e : string) :
  (forall choice text rest,
      stdin c = choice :: text :: rest ->
      choice = "3"%string \/ choice = "4"%string \/ choice = "5"%string ->
      py_int text = inl e ->
      exists c', main_loop (S fuel) c = Some (Raise e, c') /\ same_store c c')
  /\ (forall description text rest,
         stdin c = "1"%string :: description :: text :: rest ->
         py_float text = inl e ->
         exists c', main_loop (S fuel) c = Some (Raise e, c') /\ same_store c c').
Proof.
  split.
  - intros choice text rest Hs Hc Hint. cbn [main_loop].
    rewrite menu_step_eq, Hs. cbv zeta.
    destruct Hc as [-> | [-> | ->]]; unfold dispatch;
      cbn [String.eqb Ascii.eqb Bool.eqb]; unfold ibind at 1;
      rewrite input_eq; cbv zeta; cbn [stdin manager clock];
      unfold ibind at 1, to_int; rewrite Hint; unfold iraise;
      eexists; (split; [reflexivity | now split]).
  - intros description text rest Hs Hfl. cbn [main_loop].
    rewrite menu_step_eq, Hs. cbv zeta. unfold dispatch.
    cbn [String.eqb Ascii.eqb Bool.eqb]. unfold ibind at 1.
    rewrite input_eq. cbv zeta. cbn [stdin manager clock].
    unfold ibind at 1. rewrite input_eq. cbv zeta. cbn [stdin manager clock].
    unfold ibind at 1, to_float. rewrite Hfl. unfold iraise.
    eexists. split; [reflexivity | now split].
Qed.

End MenuStore.

(** ** Adding and editing through the menu *)

Lemma pointwise_same (d : option string) (a : option float) (c dt : option string)
    (es es' : list Expense) :
  (forall e, update_fields d a c dt e = e) ->
  Forall2 (fun e e' => e' = e \/ e' = update_fields d a c dt e) es es' ->
  es' = es.
Proof.
  intros Hup. induction 1 as [|e e' es es' He _ IH]; [reflexivity|].
  rewrite IH. destruct He as [->| ->]; now rewrite ?Hup.
Qed.

Ltac io_input :=
  unfold ibind at 1; rewrite input_eq; cbv zeta; cbn [stdin manager clock].

Section MenuEdit.

Context {rt : Runtime} {bi : Builtins}.

Lemma apply_edit_nothing (i : Z) (d : option string) (a : option float)
    (c dt : option string) (es : list Expense) :
  (forall e, update_fields d a c dt e = e) ->
  apply_op (OpEdit i d a c dt) es = es.
Proof.
  intros Hup. cbn [apply_op].
  destruct (edit_first i d a c dt es) as [es'|] eqn:E; [|reflexivity].
  apply edit_first_pointwise in E. now apply (pointwise_same d a c dt).
Qed.

(** X20. Choice 3 with the id answered by a number and the four other
    prompts left blank changes no record; nor does it when the amount is
    answered by a text that [float] reads as zero while the others are
    blank.  The turn reads its six lines and the loop goes on. *)
Theorem blank_edit_changes_nothing (c : Console) (id_text amount_text : string)
    (rest : list string) (i : Z) :
  stdin c = "3" :: id_text :: "" :: amount_text :: "" :: "" :: rest ->
  py_int id_text = inr i ->
  amount_text = ""%string
  \/ (exists x, py_float amount_text = inr x /\ PyFloat.truthy x = false) ->
  exists c',
    menu_step c = (Return false, c')
    /\ expenses (manager c') = expenses (manager c)
    /\ stdin c' = rest.
Proof.
  intros Hs Hint Hamount. rewrite menu_step_eq, Hs. cbv zeta.
  unfold dispatch. cbn [String.eqb Ascii.eqb Bool.eqb].
  io_input. unfold ibind at 1, to_int. rewrite Hint. unfold iret at 1.
  do 4 io_input.
  assert (exists a,
             (forall v, a = Some v -> PyFloat.truthy v = false)
             /\ forall c0,
                 (if PyStr.truthy amount_text
                  then ibind (to_float amount_text) (fun x => iret (Some x))
                  else iret None) c0 = (Return a, c0)) as (a & Ha & Hstep).
  { destruct Hamount as [-> | (x & Hx & Hzero)].
    - exists None. split; [discriminate | reflexivity].
    - destruct (PyStr.truthy amount_text).
      + exists (Some x). split; [now intros v [= <-]|].
        intros c0. unfold ibind, to_float. now rewrite Hx.
      + exists None. split; [discriminate | reflexivity]. }
  unfold ibind at 1. rewrite Hstep.
  change (edit_expense i (or_none "") a (or_none "") (or_none ""))
    with (perform (OpEdit i None a None None)).
  unfold ibind at 1. rewrite lift_perform. unfold iret.
  eexists. split; [reflexivity|]. cbn [manager stdin]. split; [|reflexivity].
  rewrite perform_expenses. cbn [expenses].
  apply apply_edit_nothing. intros e.
  apply update_fields_nothing; try discriminate. exact Ha.
Qed.

(** X21. Choice 1 with an amount that [float] accepts appends one record
    holding the three other answers as they were typed, whatever they are
    (an empty description, a date that is no date), the converted amount,
    the id one above the number of records and the reading of the clock;
    the turn reads its five lines and the loop goes on. *)
Theorem menu_add_stores_the_answers (c : Console)
    (description amount_text category date : string) (rest : list string)
    (x : float) :
  stdin c = "1" :: description :: amount_text :: category :: date :: rest ->
  py_float amount_text = inr x ->
  exists c',
    menu_step c = (Return false, c')
    /\ expenses (manager c')
       = (expenses (manager c)
          ++ [mkExpense (Z.of_nat (List.length (expenses (manager c))) + 1)
                description x category date (clock c O)])%list
    /\ stdin c' = rest
    /\ (forall k, clock c' k = clock c (S k)).
Proof.
  intros Hs Hfl. rewrite menu_step_eq, Hs. cbv zeta.
  unfold dispatch. cbn [String.eqb Ascii.eqb Bool.eqb].
  do 2 io_input. unfold ibind at 1, to_float. rewrite Hfl. unfold iret at 1.
  do 2 io_input. unfold ibind at 1, now. cbn [stdin manager clock].
  change (add_expense description x category date (clock c O))
    with (perform (OpAdd (mkEntry description x category date (clock c O)))).
  unfold ibind at 1. rewrite lift_perform. unfold iret.
  eexists. split; [reflexivity|]. cbn [manager stdin clock].
  split; [|split; reflexivity].
  rewrite perform_expenses. reflexivity.
Qed.

End MenuEdit.

(* ================================================================== *)
(** * The further statements at sample inputs *)


(** Witness for X2: no file, a file written by the manager, a file holding
    other text. *)
Lemma init_cases_witness :
  init (rt := reference_runtime) Sample.fresh
  = (Return tt,
     mkState [] Sample.disk
       ["No expenses file found. Starting with an empty expenses list."])
  /\ init (rt := reference_runtime)
       (mkState [] (mkFile (Some (Wire.dumps [Sample.coffee])) None) [])
     = (Return tt,
        mkState [Sample.coffee] (mkFile (Some (Wire.dumps [Sample.coffee])) None) [])
  /\ init (rt := reference_runtime) (mkState [] (mkFile (Some "[]") None) [])
     = (Raise "Expecting value", mkState [] (mkFile (Some "[]") None) []).
Proof.
  split; [|split].
  - apply (proj1 (init_cases (rt := reference_runtime) Sample.fresh)). reflexivity.
  - apply (proj1 (proj2 (init_cases (rt := reference_runtime)
                           (mkState [] (mkFile (Some (Wire.dumps [Sample.coffee])) None) [])))
             (Wire.dumps [Sample.coffee]) [Sample.coffee]); reflexivity.
  - apply (proj2 (proj2 (init_cases (rt := reference_runtime)
                           (mkState [] (mkFile (Some "[]") None) [])))
             "[]"%string "Expecting value"%string); reflexivity.
Defined.

(** Witness for X4: an empty description and a zero amount offered to a
    record whose four values are true. *)
Lemma edit_cannot_blank_a_field_witness :
  Forall filled
    (expenses
       (exec (edit_expense (rt := reference_runtime) 1 (Some "") (Some PyFloat.zero)
                None None) Sample.one_record)).
Proof.
  apply (edit_cannot_blank_a_field (rt := reference_runtime)).
  repeat constructor.
Defined.

(** Witness for X5: two records with id 1 and a new description. *)
Lemma edit_skips_later_duplicates_witness :
  expenses
    (exec (edit_expense (rt := reference_runtime) 1 (Some "Fare") None None None)
       (mkState [Sample.rent; Sample.january_a; Sample.february; Sample.coffee]
          Sample.disk []))
  = [Sample.rent; set_description "Fare" Sample.january_a; Sample.february;
     Sample.coffee].
Proof.
  apply (edit_skips_later_duplicates (rt := reference_runtime)
           (mkState [Sample.rent; Sample.january_a; Sample.february; Sample.coffee]
              Sample.disk [])
           1 (Some "Fare"%string) None None None
           [Sample.rent] [Sample.february] [] Sample.january_a Sample.coffee);
    try reflexivity.
  intros x [<-|[]]. discriminate.
Defined.

(** Witness for X6: every argument given and false. *)
Lemma edit_with_nothing_to_change_witness :
  edit_expense (rt := reference_runtime) 1 (Some "") (Some (S754_zero true))
    (Some "") None Sample.one_record
  = (Return tt,
     mkState [Sample.coffee] (mkFile (Some (Wire.dumps [Sample.coffee])) None)
       ["Expense ID 1 updated."]).
Proof.
  apply (edit_with_nothing_to_change (rt := reference_runtime) Sample.one_record 1);
    try (intros v [= <-]; reflexivity); try discriminate; try reflexivity.
  exists Sample.coffee. split; [now left | reflexivity].
Defined.

(** Witness for X7: the same three calls on a read-only file. *)
Lemma session_list_ignores_the_file_witness :
  expenses
    (exec (run (rt := reference_runtime)
             [OpAdd (Sample.entry "Tea"); OpDelete 1; OpList]) Sample.locked)
  = [new_expense 1 (Sample.entry "Tea")]
  /\ file
       (exec (run (rt := reference_runtime)
                [OpAdd (Sample.entry "Tea"); OpDelete 1; OpList]) Sample.locked)
     = file Sample.locked.
Proof.
  destruct (session_list_ignores_the_file (rt := reference_runtime)
              [OpAdd (Sample.entry "Tea"); OpDelete 1; OpList] Sample.locked)
    as [H1 H2].
  split; [rewrite H1; reflexivity | eapply H2; reflexivity].
Defined.

(** Witness for X8: id 9 in a list of two records. *)
Lemma delete_unknown_id_still_reports_witness :
  delete_expense (rt := reference_runtime) 9 Sample.two_records
  = (Return tt,
     mkState [Sample.coffee; Sample.rent]
       (mkFile (Some (Wire.dumps [Sample.coffee; Sample.rent])) None)
       ["Expense ID 9 deleted."]).
Proof.
  apply (delete_unknown_id_still_reports (rt := reference_runtime)
           Sample.two_records 9); [|reflexivity].
  intros e [<-|[<-|[]]]; discriminate.
Defined.

(** Witness for X10: the list of two records has no id 3. *)
Lemma add_then_delete_new_id_witness :
  expenses
    (exec (run (rt := reference_runtime) [OpAdd (Sample.entry "Tea"); OpDelete 3])
       Sample.two_records)
  = [Sample.coffee; Sample.rent].
Proof.
  apply (proj2 (proj2 (add_then_delete_new_id (rt := reference_runtime)
                         Sample.two_records (Sample.entry "Tea")))).
  intros e [<-|[<-|[]]]; discriminate.
Defined.

(** Witness for X11: adds, an edit and reports, no delete. *)
Lemma ids_stay_sequential_without_delete_witness :
  map id
    (expenses
       (exec (run (rt := reference_runtime)
                [OpAdd (Sample.entry "Tea"); OpEdit 1 (Some "Mocha") None None None;
                 OpList; OpAdd (Sample.entry "Bus"); OpCategory "misc"])
          Sample.one_record))
  = [1; 2; 3].
Proof.
  apply (proj1 (ids_stay_sequential_without_delete (rt := reference_runtime)
                  [OpAdd (Sample.entry "Tea"); OpEdit 1 (Some "Mocha"%string) None None None;
                   OpList; OpAdd (Sample.entry "Bus"); OpCategory "misc"]
                  Sample.one_record
                  ltac:(repeat constructor) eq_refl)).
Defined.

(** Witness for X12: of three records, deleting the second makes the next
    id collide, deleting the third does not. *)
Lemma delete_then_add_collides_witness :
  ~ NoDup
      (map id
         (expenses
            (exec (run (rt := reference_runtime)
                     (map OpAdd [Sample.entry "a"; Sample.entry "b"; Sample.entry "c"]
                        ++ [OpDelete 2; OpAdd (Sample.entry "d")]))
               Sample.fresh)))
  /\ NoDup
       (map id
          (expenses
             (exec (run (rt := reference_runtime)
                      (map OpAdd [Sample.entry "a"; Sample.entry "b"; Sample.entry "c"]
                         ++ [OpDelete 3; OpAdd (Sample.entry "d")]))
                Sample.fresh))).
Proof.
  split.
  - intros H.
    apply (proj1 (delete_then_add_collides (rt := reference_runtime)
                    [Sample.entry "a"; Sample.entry "b"; Sample.entry "c"] 2
                    (Sample.entry "d") Sample.disk [])) in H.
    apply H. cbn. lia.
  - apply (proj2 (delete_then_add_collides (rt := reference_runtime)
                    [Sample.entry "a"; Sample.entry "b"; Sample.entry "c"] 3
                    (Sample.entry "d") Sample.disk [])).
    cbn. lia.
Defined.

(** Witness for X13: a first run of the program that adds, edits and
    deletes, and the start of the second run. *)
Lemma restart_shows_the_same_list_witness :
  exists out,
    init (rt := reference_runtime)
      (mkState []
         (file
            (exec (run (rt := reference_runtime)
                     [OpAdd (Sample.entry "Tea"); OpAdd (Sample.entry "Bus");
                      OpEdit 2 (Some "Tram") None None None; OpDelete 1])
               (mkState [] Sample.disk
                  ["No expenses file found. Starting with an empty expenses list."])))
         [])
    = (Return tt,
       mkState [set_description "Tram" (new_expense 1 (Sample.entry "Bus"))]
         (file
            (exec (run (rt := reference_runtime)
                     [OpAdd (Sample.entry "Tea"); OpAdd (Sample.entry "Bus");
                      OpEdit 2 (Some "Tram") None None None; OpDelete 1])
               (mkState [] Sample.disk
                  ["No expenses file found. Starting with an empty expenses list."])))
         out).
Proof.
  exact (restart_shows_the_same_list (rt := reference_runtime)
           (json := reference_runtime_round_trip)
           Sample.fresh
           (mkState [] Sample.disk
              ["No expenses file found. Starting with an empty expenses list."])
           [OpAdd (Sample.entry "Tea"); OpAdd (Sample.entry "Bus");
            OpEdit 2 (Some "Tram"%string) None None None; OpDelete 1]
           eq_refl eq_refl [] []).
Defined.

(** Witness for X14: a record of January is not a record of October. *)
Lemma months_do_not_overlap_witness :
  In Sample.january_a (monthly_expenses 1 2024 (expenses Sample.winter))
  /\ ~ In Sample.january_a (monthly_expenses 10 2024 (expenses Sample.winter)).
Proof.
  assert (In Sample.january_a (monthly_expenses 1 2024 (expenses Sample.winter)))
    as H1 by (now left).
  split; [exact H1|]. intros H10.
  pose proof (months_do_not_overlap 2024 1 10 (expenses Sample.winter)
                Sample.january_a ltac:(lia) ltac:(lia) H1 H10) as H.
  discriminate H.
Defined.

(** Witness for X16: an input that lists and then stops without the
    line 7. *)
Lemma main_returns_only_on_7_witness :
  exists e c',
    main (rt := reference_runtime) (bi := reference_builtins) 3
      (SampleRun.console Sample.fresh ["2"; "6"])
    = Some (Raise e, c').
Proof.
  apply (proj2 (main_returns_only_on_7 (rt := reference_runtime)
                  (bi := reference_builtins)
                  (SampleRun.console Sample.fresh ["2"; "6"]))).
  cbn. intros [H|[H|[]]]; discriminate H.
Defined.

(** Witness for X17: the category report asked from the menu. *)
Lemma other_choices_keep_the_store_witness :
  same_store
    (SampleRun.console Sample.two_records ["6"; "food"; "7"])
    (snd (menu_step (rt := reference_runtime) (bi := reference_builtins)
            (SampleRun.console Sample.two_records ["6"; "food"; "7"]))).
Proof.
  apply (other_choices_keep_the_store (rt := reference_runtime)
           (bi := reference_builtins)
           (SampleRun.console Sample.two_records ["6"; "food"; "7"]) _
           (fst (menu_step (rt := reference_runtime) (bi := reference_builtins)
                   (SampleRun.console Sample.two_records ["6"; "food"; "7"])))).
  - intros choice rest [= <- _]. repeat split; discriminate.
  - apply surjective_pairing.
Defined.

(** Witness for X18: the choice 1 typed with a blank after it. *)
Lemma invalid_choice_goes_on_witness :
  menu_step (rt := reference_runtime) (bi := reference_builtins)
    (SampleRun.console Sample.fresh ["1 "; "7"])
  = (Return false,
     mkConsole
       (mkState [] Sample.disk
          (menu ++ ["Enter your choice: "; "Invalid choice. Please try again."]))
       ["7"] SampleRun.clock).
Proof.
  apply (invalid_choice_goes_on (rt := reference_runtime) (bi := reference_builtins)
           (SampleRun.console Sample.fresh ["1 "; "7"]) "1 " ["7"] eq_refl).
  cbn. intros H. repeat (destruct H as [H|H]; [discriminate H|]). exact H.
Defined.

(** Witness for X19: a letter typed for the id to delete, and for the
    amount to add. *)
Lemma bad_number_ends_the_program_witness :
  (exists c',
      main_loop (rt := reference_runtime) (bi := reference_builtins) 1
        (SampleRun.console Sample.two_records ["4"; "x"; "7"])
      = Some (Raise "invalid literal for int() with base 10: 'x'", c')
      /\ same_store (SampleRun.console Sample.two_records ["4"; "x"; "7"]) c')
  /\ (exists c',
         main_loop (rt := reference_runtime) (bi := reference_builtins) 1
           (SampleRun.console Sample.two_records ["1"; "Tea"; "x"; "Food"])
         = Some (Raise "could not convert string to float: 'x'", c')
         /\ same_store
              (SampleRun.console Sample.two_records ["1"; "Tea"; "x"; "Food"]) c').
Proof.
  split.
  - apply (proj1 (bad_number_ends_the_program (rt := reference_runtime)
                    (bi := reference_builtins) 0
                    (SampleRun.console Sample.two_records ["4"; "x"; "7"])
                    "invalid literal for int() with base 10: 'x'")
             "4"%string "x"%string ["7"%string] eq_refl);
      [right; now left | reflexivity].
  - apply (proj2 (bad_number_ends_the_program (rt := reference_runtime)
                    (bi := reference_builtins) 0
                    (SampleRun.console Sample.two_records ["1"; "Tea"; "x"; "Food"])
                    "could not convert string to float: 'x'")
             "Tea"%string "x"%string ["Food"%string] eq_refl).
    reflexivity.
Defined.

(** Witness for X20: the amount of record 1 answered by 0. *)
Lemma blank_edit_changes_nothing_witness :
  exists c',
    menu_step (rt := reference_runtime) (bi := reference_builtins)
      (SampleRun.console Sample.one_record ["3"; "1"; ""; "0"; ""; ""; "7"])
    = (Return false, c')
    /\ expenses (manager c') = [Sample.coffee]
    /\ stdin c' = ["7"].
Proof.
  apply (blank_edit_changes_nothing (rt := reference_runtime)
           (bi := reference_builtins)
           (SampleRun.console Sample.one_record ["3"; "1"; ""; "0"; ""; ""; "7"])
           "1" "0" ["7"] 1 eq_refl eq_refl).
  right. exists PyFloat.zero. split; reflexivity.
Defined.

(** Witness for X21: an expense with no description and a date that is
    no date. *)
Lemma menu_add_stores_the_answers_witness :
  exists c',
    menu_step (rt := reference_runtime) (bi := reference_builtins)
      (SampleRun.console Sample.one_record ["1"; ""; "3"; "Food"; "yesterday"; "7"])
    = (Return false, c')
    /\ expenses (manager c')
       = [Sample.coffee;
          mkExpense 2 "" (PyFloat.dyadic 3 0) "Food" "yesterday" "2024-06-01 12:00:00"]
    /\ stdin c' = ["7"]
    /\ (forall k, clock c' k = SampleRun.clock (S k)).
Proof.
  exact (menu_add_stores_the_answers (rt := reference_runtime)
           (bi := reference_builtins)
           (SampleRun.console Sample.one_record
              ["1"; ""; "3"; "Food"; "yesterday"; "7"])
           "" "3" "Food" "yesterday" ["7"] (PyFloat.dyadic 3 0) eq_refl eq_refl).
Defined.

(** Witness for X15: three lines, four turns or ten. *)
Lemma main_terminates_witness :
  main (rt := reference_runtime) (bi := reference_builtins) 10
    (SampleRun.console Sample.fresh ["2"; "9"; "7"])
  = main (rt := reference_runtime) (bi := reference_builtins) 4
      (SampleRun.console Sample.fresh ["2"; "9"; "7"]).
Proof.
  apply (proj2 (main_terminates (rt := reference_runtime) (bi := reference_builtins)
                  (SampleRun.console Sample.fresh ["2"; "9"; "7"]))).
  cbn. lia.
Defined.
